(** * CloudSSHSpawner: a shallow embedding of [cloudsshspawner.py]

    The spawner launches, polls and stops one remote process over SSH.  The
    Python class is embedded as functions in a state-and-exception monad over
    the pair of the spawner object ([self]) and the outside world (dict
    objects, local files, the log of remote and local operations).  Library
    calls whose code is outside the repository (the SSH transport, the random
    generator, the hub's base class) are answered by an [Oracle].

    Coroutines are run to completion one after the other, as a single call of
    [start], [poll] or [stop] does; logging calls are left out.  The output
    of a remote command is a text: the source asks the transport for no other
    encoding than its default, so what it compares with an empty bytes
    literal is a [str]. *)

From Stdlib Require Import ZArith Strings.Byte Strings.Ascii.
From stdpp Require Import base option list strings gmap fin_maps.

Local Open Scope string_scope.
Local Open Scope list_scope.
Local Open Scope Z_scope.

(** ** Python primitives *)

Module Py.

(** The characters of a text, as their codes (below 256). *)
Definition chars (s : string) : list byte := String.list_byte_of_string s.

(** ["%d" % z], [str(z)] and ["{}".format(z)] on an integer: the decimal
    digits, last one first, with enough fuel for all of them, and a minus
    sign for a negative number. *)
Definition digit_char (n : Z) : ascii := Ascii.ascii_of_N (Z.to_N (48 + n mod 10)).

Fixpoint digits_pos (fuel : nat) (n : Z) (acc : string) : string :=
  match fuel with
  | O => acc
  | S fuel' =>
      let c := digit_char n in
      if n / 10 =? 0 then String c acc
      else digits_pos fuel' (n / 10) (String c acc)
  end.

Definition fmt_d (z : Z) : string :=
  let n := Z.abs z in
  let body := digits_pos (S (Z.to_nat (Z.log2 n))) n "" in
  if z <? 0 then "-" +:+ body else body.

(** [int(s)] on a text, base 10: surrounding white space is dropped, one
    sign is allowed, digits may be separated by single underscores, and
    anything else is a [ValueError] ([None]); so is the empty text.  White
    space is tab to carriage return, the blank, and of the other characters
    below 256 the next-line and the no-break blank.  The interpreter's
    configurable cap on the number of digits is not part of the model. *)
Definition is_space (b : byte) : bool :=
  let n := Byte.to_N b in
  ((9 <=? n) && (n <=? 13))%N || (n =? 32)%N || (n =? 133)%N || (n =? 160)%N.

Definition digit_value (b : byte) : option Z :=
  let n := Byte.to_N b in
  if ((48 <=? n) && (n <=? 57))%N then Some (Z.of_N n - 48) else None.

Definition is_underscore (b : byte) : bool := (Byte.to_N b =? 95)%N.

Fixpoint skip_space (l : list byte) : list byte :=
  match l with
  | b :: l' => if is_space b then skip_space l' else l
  | [] => []
  end.

(** The digit loop: [seen] counts digits so far, [prev_us] tells whether the
    previous character was an underscore. *)
Fixpoint scan_digits (l : list byte) (acc : Z) (seen : bool) (prev_us : bool)
  : option (Z * list byte) :=
  match l with
  | b :: l' =>
      match digit_value b with
      | Some d => scan_digits l' (acc * 10 + d) true false
      | None =>
          if is_underscore b then
            if prev_us then None
            else if seen then scan_digits l' acc seen true else None
          else if prev_us then None
          else if seen then Some (acc, l) else None
      end
  | [] => if prev_us then None else if seen then Some (acc, []) else None
  end.

Definition int_of_chars (l : list byte) : option Z :=
  let l1 := skip_space l in
  let '(neg, l2) :=
    match l1 with
    | b :: l' =>
        if (Byte.to_N b =? 45)%N then (true, l')
        else if (Byte.to_N b =? 43)%N then (false, l')
        else (false, l1)
    | [] => (false, l1)
    end in
  match scan_digits l2 0 false false with
  | Some (n, rest) =>
      match skip_space rest with
      | [] => Some (if neg then - n else n)
      | _ :: _ => None
      end
  | None => None
  end.

Definition int_of_str (s : string) : option Z := int_of_chars (chars s).

(** The test of a text [s] against the empty bytes literal, [s != b...]: a
    [str] and a bytes object are never equal, so it holds whatever the text
    is. *)
Definition differs_from_empty_bytes (s : string) : bool := true.

(** [s.startswith(p)], [s.endswith(p)] and [s[0:n]]. *)
Definition startswith (s p : string) : bool := String.prefix p s.

Definition endswith (s p : string) : bool :=
  let ls := String.length s in
  let lp := String.length p in
  if (lp <=? ls)%nat then String.eqb (String.substring (ls - lp) lp s) p
  else false.

Definition slice0 (n : nat) (s : string) : string := String.substring 0 n s.

(** [sep.join(l)]. *)
Fixpoint str_join (sep : string) (l : list string) : string :=
  match l with
  | [] => ""
  | [x] => x
  | x :: l' => x +:+ sep +:+ str_join sep l'
  end.

(** [os.path.basename]: what follows the last slash. *)
Fixpoint basename_from (s : string) (cur : string) : string :=
  match s with
  | EmptyString => cur
  | String c s' =>
      if Ascii.eqb c "/"%char then basename_from s' s' else basename_from s' cur
  end.

Definition basename (p : string) : string := basename_from p p.

(** [os.path.join] with two arguments (posixpath). *)
Definition path_join (a b : string) : string :=
  if startswith b "/" then b
  else if String.eqb a "" || endswith a "/" then a +:+ b
  else a +:+ "/" +:+ b.

(** The line feed, and a line ended by it. *)
Definition nl : string := String "010"%char "".

(** [template % arg] for one string argument: [%s] takes the argument,
    [%%] is a percent sign.  A second [%s], a missing one and every other
    conversion are answered with an error. *)
Fixpoint percent1 (template arg : string) (used : bool) : option string :=
  match template with
  | EmptyString => if used then Some "" else None
  | String "%"%char (String "s"%char t') =>
      if used then None else String.append arg <$> percent1 t' arg true
  | String "%"%char (String "%"%char t') => String "%"%char <$> percent1 t' arg used
  | String "%"%char _ => None
  | String c t' => String c <$> percent1 t' arg used
  end.

(** Truth value of a string and of an integer. *)
Definition truthy_str (s : string) : bool := negb (String.eqb s "").
Definition truthy_int (z : Z) : bool := negb (z =? 0).

End Py.

Module Spawner.

(** ** Data model *)

(** Values of the persisted-state mapping. *)
Inductive PyVal :=
  | VInt (z : Z)
  | VStr (s : string).

(** Dict objects live in a store and are named by a reference, so that a
    callee can update the caller's dict. *)
Definition loc := nat.

(** The spawner object: its traits, then what it inherits from the hub
    ([self.user], [self.hub], [self.cmd], [self.cert_paths]). *)
Record Spawner := mkSpawner {
  remote_hosts : list string;
  remote_host : string;
  remote_port : string;
  path : string;
  remote_port_command : string;
  hub_public_host : string;
  hub_api_url : string;
  hub_api_port : string;
  hub_api_interface : string;
  hub_activity_url : string;
  ssh_keyfile : string;
  pid : Z;
  resource_path : string;
  ssh_forward_tunnel_client : bool;
  ssh_forward_tunnel_client_path : string;
  ssh_forward_credentials_paths : loc;
  user_name : string;
  internal_ssl : bool;
  hub_self_api_url : string;
  hub_port : Z;
  hub_ip : string;
  cmd : list string;
  cert_paths : loc;
}.

(** The default of the [remote_host] trait, written again by [clear_state]. *)
Definition default_remote_host : string := "remote_host".
Definition default_pid : Z := 0.

Definition set_remote_host (v : string) (s : Spawner) : Spawner :=
  mkSpawner (remote_hosts s) v (remote_port s) (path s)
    (remote_port_command s) (hub_public_host s) (hub_api_url s)
    (hub_api_port s) (hub_api_interface s) (hub_activity_url s)
    (ssh_keyfile s) (pid s) (resource_path s) (ssh_forward_tunnel_client s)
    (ssh_forward_tunnel_client_path s) (ssh_forward_credentials_paths s)
    (user_name s) (internal_ssl s) (hub_self_api_url s) (hub_port s)
    (hub_ip s) (cmd s) (cert_paths s).

Definition set_remote_port (v : string) (s : Spawner) : Spawner :=
  mkSpawner (remote_hosts s) (remote_host s) v (path s)
    (remote_port_command s) (hub_public_host s) (hub_api_url s)
    (hub_api_port s) (hub_api_interface s) (hub_activity_url s)
    (ssh_keyfile s) (pid s) (resource_path s) (ssh_forward_tunnel_client s)
    (ssh_forward_tunnel_client_path s) (ssh_forward_credentials_paths s)
    (user_name s) (internal_ssl s) (hub_self_api_url s) (hub_port s)
    (hub_ip s) (cmd s) (cert_paths s).

Definition set_pid (v : Z) (s : Spawner) : Spawner :=
  mkSpawner (remote_hosts s) (remote_host s) (remote_port s) (path s)
    (remote_port_command s) (hub_public_host s) (hub_api_url s)
    (hub_api_port s) (hub_api_interface s) (hub_activity_url s)
    (ssh_keyfile s) v (resource_path s) (ssh_forward_tunnel_client s)
    (ssh_forward_tunnel_client_path s) (ssh_forward_credentials_paths s)
    (user_name s) (internal_ssl s) (hub_self_api_url s) (hub_port s)
    (hub_ip s) (cmd s) (cert_paths s).

Definition set_cert_paths (v : loc) (s : Spawner) : Spawner :=
  mkSpawner (remote_hosts s) (remote_host s) (remote_port s) (path s)
    (remote_port_command s) (hub_public_host s) (hub_api_url s)
    (hub_api_port s) (hub_api_interface s) (hub_activity_url s)
    (ssh_keyfile s) (pid s) (resource_path s) (ssh_forward_tunnel_client s)
    (ssh_forward_tunnel_client_path s) (ssh_forward_credentials_paths s)
    (user_name s) (internal_ssl s) (hub_self_api_url s) (hub_port s)
    (hub_ip s) (cmd s) v.

(** What one [conn.run] gives back: both outputs decoded to text, and the
    exit status, absent when the remote command did not exit by itself. *)
Record RunResult := mkRunResult {
  stdout : string;
  stderr : string;
  exit_status : option Z;
}.

(** Operations that leave the process, in the order they were issued. *)
Inductive Event :=
  | EvSsh (host user command : string) (stdin : option string)
  | EvScp (host user : string) (files : list string) (dest : string)
  | EvChmod (file : string) (mode : Z)
  | EvSubprocess (argv : list string).

Record World := mkWorld {
  w_heap : gmap loc (gmap string string);
  w_fs : gmap string string;
  w_dirs : gset string;
  w_trace : list Event;
}.

Definition with_heap (f : gmap loc (gmap string string) → gmap loc (gmap string string))
    (w : World) : World :=
  mkWorld (f (w_heap w)) (w_fs w) (w_dirs w) (w_trace w).

Definition with_fs (f : gmap string string → gmap string string) (w : World) : World :=
  mkWorld (w_heap w) (f (w_fs w)) (w_dirs w) (w_trace w).

Definition with_dirs (f : gset string → gset string) (w : World) : World :=
  mkWorld (w_heap w) (w_fs w) (f (w_dirs w)) (w_trace w).

Definition with_trace (f : list Event → list Event) (w : World) : World :=
  mkWorld (w_heap w) (w_fs w) (w_dirs w) (f (w_trace w)).

(** Answers of the code outside the repository.  Each may depend on the
    world as it is when the call is made.  [None] and [false] stand for the
    call raising. *)
Record Oracle := mkOracle {
  (* [template.format(username=...)] *)
  format_username : string → string → option string;
  (* [asyncssh.read_private_key], [asyncssh.read_certificate] *)
  read_private_key : World → string → option string;
  read_certificate : World → string → option string;
  (* the draw of [random.choice] for a list of the given length *)
  randbelow : World → nat → nat;
  (* one session to host, as user, running command, with stdin from a file *)
  ssh_run : World → string → string → string → option string → option RunResult;
  (* one session to host, as user, copying files to a remote directory *)
  scp : World → string → string → list string → string → bool;
  (* [os.path.expanduser] *)
  expanduser : string → string;
  (* the directory made by [TemporaryDirectory()] *)
  mkdtemp : World → string;
  (* whether a file can be opened for writing *)
  open_w : World → string → bool;
  (* the answer of the [chmod] helper *)
  chmod_answer : World → string → Z → bool;
  (* whether [subprocess.run] could start the program *)
  subprocess_run : World → list string → bool;
  (* the base class's [get_env()], [get_args()] and [get_state()] *)
  super_get_env : list (string * string);
  get_args : list string;
  super_get_state : gmap string PyVal;
}.

Inductive exn :=
  | IndexError
  | ValueError
  | KeyError (key : string)
  | TypeError
  | TraitError
  | OSError (file : string)
  | ShutilError (file : string)
  | ConnectionError
  | FormatError
  | DanglingRef
  | Exception (msg : string).

Inductive Outcome (A : Type) :=
  | Ok (a : A)
  | Raise (e : exn).
Arguments Ok {A} a.
Arguments Raise {A} e.

(** What [start] returns: [False], [None] or the pair [(host, port)]. *)
Inductive StartResult :=
  | StartFalse
  | StartNone
  | StartAt (host : string) (port : Z).

(** ** The monad: state over [(self, world)], with exceptions *)

Definition St : Type := Spawner * World.
Definition M (A : Type) : Type := St → Outcome A * St.

#[global] Instance M_ret : MRet M := λ A a st, (Ok a, st).
#[global] Instance M_bind : MBind M := λ A B f m st,
  match m st with
  | (Ok a, st') => f a st'
  | (Raise e, st') => (Raise e, st')
  end.
#[global] Instance M_fmap : FMap M := λ A B f m st,
  match m st with
  | (Ok a, st') => (Ok (f a), st')
  | (Raise e, st') => (Raise e, st')
  end.

Definition self : M Spawner := λ st, (Ok st.1, st).
Definition world : M World := λ st, (Ok st.2, st).
Definition set_self (f : Spawner → Spawner) : M unit := λ st, (Ok (), (f st.1, st.2)).
Definition set_world (f : World → World) : M unit := λ st, (Ok (), (st.1, f st.2)).
Definition raise {A} (e : exn) : M A := λ st, (Raise e, st).
Definition lift_opt {A} (o : option A) (e : exn) : M A :=
  match o with Some a => mret a | None => raise e end.
Definition log_event (ev : Event) : M unit := set_world (with_trace (λ t, t ++ [ev])).

(** [try: body finally: cleanup]. *)
Definition finally {A} (body : M A) (cleanup : World → World) : M A := λ st,
  let '(r, st') := body st in (r, (st'.1, cleanup st'.2)).

(** ** The operations of the class *)

Section Operations.

Variable O : Oracle.

(** *** Dict objects *)

Definition dict_get (d : loc) (k : string) : M string :=
  w ← world;
  m ← lift_opt (w_heap w !! d) DanglingRef;
  lift_opt (m !! k) (KeyError k).

Definition dict_set (d : loc) (k v : string) : M unit :=
  w ← world;
  m ← lift_opt (w_heap w !! d) DanglingRef;
  set_world (with_heap (<[d := <[k := v]> m]>)).

Definition dict_new (m : gmap string string) : M loc :=
  w ← world;
  let d := fresh (dom (w_heap w)) in
  set_world (with_heap (<[d := m]>));;
  mret d.

(** [env[k] = v] on a dict read in insertion order: an existing key keeps its
    place, a new one goes last. *)
Fixpoint odict_set (k v : string) (env : list (string * string))
  : list (string * string) :=
  match env with
  | [] => [(k, v)]
  | (k', v') :: env' =>
      if String.eqb k' k then (k', v) :: env' else (k', v') :: odict_set k v env'
  end.

(** *** Local files *)

Definition isfile (w : World) (p : string) : bool :=
  bool_decide (is_Some (w_fs w !! p)).

Definition isdir (w : World) (p : string) : bool :=
  bool_decide (p ∈ w_dirs w).

Definition under (d p : string) : bool := Py.startswith p (d +:+ "/").

(** [open(p, "w")] followed by [f.write(content)]. *)
Definition write_file (p content : string) : M unit :=
  w ← world;
  if open_w O w p then set_world (with_fs (<[p := content]>))
  else raise (OSError p).

(** [shutil.copy]: into the directory [dst] under the source's base name, or
    onto the file [dst]. *)
Definition shutil_copy (src dst : string) : M unit :=
  w ← world;
  let real_dst := if isdir w dst then Py.path_join dst (Py.basename src) else dst in
  if String.eqb src real_dst then raise (ShutilError real_dst)
  else
    content ← lift_opt (w_fs w !! src) (OSError src);
    write_file real_dst content.

(** [shutil.move] of a regular file: it refuses an existing entry of that
    name inside the directory [dst], and the source is gone afterwards. *)
Definition shutil_move (src dst : string) : M unit :=
  w ← world;
  let real_dst := if isdir w dst then Py.path_join dst (Py.basename src) else dst in
  if isdir w dst && (isfile w real_dst || isdir w real_dst)
  then raise (ShutilError real_dst)
  else
    content ← lift_opt (w_fs w !! src) (OSError src);
    if open_w O w real_dst
    then set_world (with_fs (λ fs, <[real_dst := content]> (delete src fs)))
    else raise (OSError real_dst).

Definition rmtree (d : string) (w : World) : World :=
  with_dirs (filter (λ p, negb (String.eqb p d || under d p) = true))
    (with_fs (filter (λ e, negb (under d e.1) = true)) w).

(** [with TemporaryDirectory() as td: body]. *)
Definition with_TemporaryDirectory {A} (body : string → M A) : M A :=
  w ← world;
  let td := mkdtemp O w in
  set_world (with_dirs (λ ds, {[td]} ∪ ds));;
  finally (body td) (rmtree td).

Definition entry_of (d p : string) : option string :=
  if under d p then
    let n := String.substring (String.length d + 1)
               (String.length p - String.length d - 1) p in
    match String.index 0 "/" n with
    | Some _ => None
    | None => Some n
    end
  else None.

(** [os.listdir(d)]; the order is the one of the set's enumeration. *)
Definition listdir (w : World) (d : string) : list string :=
  omap (entry_of d) (elements (dom (w_fs w) ∪ w_dirs w)).

(** Modelled from the spec: [cloudsshspawner.io.chmod] is not among the
    sources.  It sets the permission bits of a file and tells whether that
    succeeded; the answer is the oracle's, and the request is logged. *)
Definition chmod (file : string) (mode : Z) : M bool :=
  w ← world;
  log_event (EvChmod file mode);;
  mret (chmod_answer O w file mode).

(** *** Remote sessions *)

Definition get_remote_user (username : string) : string := username.

(** The four lines that open every remote operation: the key file name from
    the [ssh_keyfile] template, the certificate next to it, both read from
    disk. *)
Definition read_identity (username : string) : M (string * string) :=
  s ← self;
  kf ← lift_opt (format_username O (ssh_keyfile s) username) FormatError;
  let cf := kf +:+ "-cert.pub" in
  w ← world;
  k ← lift_opt (read_private_key O w kf) (OSError kf);
  c ← lift_opt (read_certificate O w cf) (OSError cf);
  mret (k, c).

(** [async with asyncssh.connect(host, ...) as conn: result = await
    conn.run(command, stdin=...)]: one session, one command. *)
Definition connect_run (host username command : string) (stdin : option string)
  : M RunResult :=
  w ← world;
  log_event (EvSsh host username command stdin);;
  lift_opt (ssh_run O w host username command stdin) ConnectionError.

(** [async with asyncssh.connect(host, ...) as conn: await
    asyncssh.scp(files, (conn, dest))]. *)
Definition connect_scp (host username : string) (files : list string) (dest : string)
  : M unit :=
  w ← world;
  log_event (EvScp host username files dest);;
  if scp O w host username files dest then mret () else raise ConnectionError.

(** *** State *)

Definition assign_pid (v : PyVal) : M unit :=
  match v with
  | VInt z => set_self (set_pid z)
  | VStr _ => raise TraitError
  end.

Definition assign_remote_host (v : PyVal) : M unit :=
  match v with
  | VStr h => set_self (set_remote_host h)
  | VInt _ => raise TraitError
  end.

(** The base class's [load_state] and [clear_state] touch none of the fields
    kept here. *)
Definition load_state (state : gmap string PyVal) : M unit :=
  match state !! "pid" with
  | Some v => assign_pid v
  | None => mret ()
  end;;
  match state !! "remote_host" with
  | Some v => assign_remote_host v
  | None => mret ()
  end.

Definition get_state : M (gmap string PyVal) :=
  s ← self;
  let state := super_get_state O in
  let state := if Py.truthy_int (pid s) then <["pid" := VInt (pid s)]> state else state in
  let state :=
    if Py.truthy_str (remote_host s)
    then <["remote_host" := VStr (remote_host s)]> state else state in
  mret state.

Definition clear_state : M unit :=
  set_self (set_remote_host "remote_host");;
  set_self (set_pid 0).

(** *** Signals, polling, stopping *)

(** ["kill -s %s %d < /dev/null" % (sig, self.pid)]. *)
Definition signal_command (sig p : Z) : string :=
  "kill -s " +:+ Py.fmt_d sig +:+ " " +:+ Py.fmt_d p +:+ " < /dev/null".

Definition remote_signal (sig : Z) : M bool :=
  s ← self;
  let username := get_remote_user (user_name s) in
  _ ← read_identity username;
  let command := signal_command sig (pid s) in
  result ← connect_run (remote_host s) username command None;
  mret (bool_decide (exit_status result = Some 0)).

(** [poll] returns [None] for "still running" and [Some code] otherwise. *)
Definition poll : M (option Z) :=
  s ← self;
  if negb (Py.truthy_int (pid s)) then
    clear_state;;
    mret (Some 0)
  else
    alive ← remote_signal 0;
    if negb alive then
      clear_state;;
      mret (Some 0)
    else mret None.

Definition stop : M unit :=
  _ ← remote_signal 15;
  clear_state.

(** *** Host and port *)

(** [random.choice]: an [IndexError] on the empty list, else the element at
    a position below the length. *)
Definition choose_remote_host : M string :=
  s ← self;
  w ← world;
  match remote_hosts s with
  | [] => raise IndexError
  | h :: _ =>
      let n := length (remote_hosts s) in
      mret (nth (randbelow O w n mod n)%nat (remote_hosts s) h)
  end.

Definition remote_random_port : M (string * option Z) :=
  s ← self;
  let username := get_remote_user (user_name s) in
  _ ← read_identity username;
  result ← connect_run (remote_host s) username (remote_port_command s) None;
  port ← (if Py.differs_from_empty_bytes (stdout result)
          then Some <$> lift_opt (Py.int_of_str (stdout result)) ValueError
          else mret None);
  s ← self;
  let ip := remote_host s in
  mret (ip, port).

(** *** Staging of credentials *)

Definition stage_ssh_keys (paths : loc) (dest : string) : M loc :=
  v ← dict_get paths "private_key_file";
  dict_set paths "private_key_file" (expanduser O v);;
  v ← dict_get paths "public_key_file";
  dict_set paths "public_key_file" (expanduser O v);;
  f ← dict_get paths "private_key_file";
  shutil_copy f dest;;
  f ← dict_get paths "public_key_file";
  shutil_copy f dest;;
  private_key_file ← Py.basename <$> dict_get paths "private_key_file";
  public_key_file ← Py.basename <$> dict_get paths "public_key_file";
  s ← self;
  let private_key_path :=
    Py.path_join (ssh_forward_tunnel_client_path s) private_key_file in
  let public_key_path :=
    Py.path_join (ssh_forward_tunnel_client_path s) public_key_file in
  dict_new (<["private_key_path" := private_key_path]>
            (<["public_key_path" := public_key_path]> ∅)).

Definition stage_certs (paths : loc) (dest : string) : M loc :=
  v ← dict_get paths "keyfile";
  dict_set paths "keyfile" (expanduser O v);;
  v ← dict_get paths "certfile";
  dict_set paths "certfile" (expanduser O v);;
  v ← dict_get paths "cafile";
  dict_set paths "cafile" (expanduser O v);;
  f ← dict_get paths "keyfile";
  shutil_move f dest;;
  f ← dict_get paths "certfile";
  shutil_move f dest;;
  f ← dict_get paths "cafile";
  shutil_copy f dest;;
  key_base_name ← Py.basename <$> dict_get paths "keyfile";
  cert_base_name ← Py.basename <$> dict_get paths "certfile";
  ca_base_name ← Py.basename <$> dict_get paths "cafile";
  s ← self;
  let key := Py.path_join (resource_path s) key_base_name in
  let cert := Py.path_join (resource_path s) cert_base_name in
  let ca := Py.path_join (resource_path s) ca_base_name in
  dict_new (<["keyfile" := key]> (<["certfile" := cert]> (<["cafile" := ca]> ∅))).

(** *** The reverse tunnel *)

Definition launch_detach_process (c : string) : M bool :=
  w ← world;
  log_event (EvSubprocess [c]);;
  if subprocess_run O w [c] then mret true else raise (OSError c).

(** The environment that the source builds first is not used afterwards and
    is left out. *)
Definition start_ssh_remote_forward_session : M bool :=
  s ← self;
  _ ← read_identity (user_name s);
  key ← dict_get (ssh_forward_credentials_paths s) "private_key_file";
  let ssh_backtunnel_command :=
    "ssh -fNT -R " +:+ hub_api_port s +:+ ":" +:+ hub_api_interface s +:+ ":"
      +:+ hub_api_port s +:+ " -R " +:+ Py.fmt_d (hub_port s) +:+ ":"
      +:+ hub_ip s +:+ ":" +:+ Py.fmt_d (hub_port s) +:+ " " +:+ user_name s
      +:+ "@" +:+ remote_host s +:+ " -i " +:+ key in
  line ← lift_opt
    (Py.percent1
       ("%s < /dev/null >> ." +:+ user_name s
          +:+ "_ssh_remote_forward.log 2>&1 & pid=$!" +:+ Py.nl)
       ssh_backtunnel_command false) TypeError;
  let bash_script_str := "#!/bin/bash" +:+ Py.nl +:+ line in
  let run_script := "/tmp/" +:+ user_name s +:+ "_ssh_remote_forward_run.sh" in
  write_file run_script bash_script_str;;
  w ← world;
  (if negb (isfile w run_script)
   then raise (Exception ("The file " +:+ run_script +:+ "was not created."))
   else mret ());;
  ok ← chmod run_script 493;
  (if negb ok
   then raise (Exception ("Failed to set executable permissions on: " +:+ run_script))
   else mret ());;
  launched ← launch_detach_process run_script;
  (if negb launched
   then raise (Exception ("Failed to execute: " +:+ run_script))
   else mret ());;
  mret true.

(** *** The launch script *)

(** The environment handed to the launch script: the inherited one with
    three entries overwritten. *)
Definition exec_env (s : Spawner) : list (string * string) :=
  let env := super_get_env O in
  let env := odict_set "JUPYTERHUB_API_URL" (hub_api_url s) env in
  let env := odict_set "JUPYTERHUB_ACTIVITY_URL" (hub_activity_url s) env in
  odict_set "PATH" (path s) env.

(** ["export %s=%s\n" % item]. *)
Definition export_line (item : string * string) : string :=
  "export " +:+ item.1 +:+ "=" +:+ item.2 +:+ Py.nl.

(** The text built in [bash_script_str]: the loop over [env.items()] appends
    to the shebang line, five fixed appends follow. *)
Definition bash_script_str (env : list (string * string)) (command : string) : string :=
  let script := "#!/bin/bash" +:+ Py.nl in
  let script := fold_left (λ acc item, acc +:+ export_line item) env script in
  let script := script +:+ "unset XDG_RUNTIME_DIR" +:+ Py.nl in
  let script := script +:+ "touch .jupyter.log" +:+ Py.nl in
  let script := script +:+ "chmod 600 .jupyter.log" +:+ Py.nl in
  let script := script +:+ (command +:+ " < /dev/null >> .jupyter.log 2>&1 & pid=$!" +:+ Py.nl) in
  script +:+ "echo $pid" +:+ Py.nl.

Definition run_script_path (s : Spawner) : string :=
  "/tmp/" +:+ user_name s +:+ "_run.sh".

Definition exec_notebook (command : string) : M Z :=
  s ← self;
  let env := exec_env s in
  let username := get_remote_user (user_name s) in
  _ ← read_identity username;
  let script := bash_script_str env command in
  let run_script := run_script_path s in
  write_file run_script script;;
  w ← world;
  (if negb (isfile w run_script)
   then raise (Exception ("The file " +:+ run_script +:+ "was not created."))
   else mret ());;
  result ← connect_run (remote_host s) username "bash -s" (Some run_script);
  if Py.differs_from_empty_bytes (stdout result)
  then lift_opt (Py.int_of_str (stdout result)) ValueError
  else mret (-1).

(** *** Starting *)

(** The two loops of [start] that rewrite arguments of the command line in
    place. *)
Definition rewrite_hub_api_url (s : Spawner) (c : list string) : list string :=
  if negb (String.eqb (hub_api_url s) "") then
    let old := "--hub-api-url=" +:+ hub_self_api_url s in
    let new := "--hub-api-url=" +:+ hub_api_url s in
    map (λ value, if String.eqb value old then new else value) c
  else c.

Definition rewrite_port (port : Z) (c : list string) : list string :=
  map (λ value,
         if String.eqb (Py.slice0 6 value) "--port"
         then "--port=" +:+ Py.fmt_d port else value) c.

(** [remote_host] is a string trait, so of the test before [return False]
    only the two disjuncts on the port can hold. *)
Definition start : M StartResult :=
  s ← self;
  let username := user_name s in
  _ ← read_identity username;
  h ← choose_remote_host;
  set_self (set_remote_host h);;
  '(ip, port) ← remote_random_port;
  set_self (set_remote_host ip);;
  match port with
  | None => mret StartFalse
  | Some port =>
      if port =? 0 then mret StartFalse
      else
        set_self (set_remote_port (Py.fmt_d port));;
        s ← self;
        let c := cmd s ++ get_args O in
        (if internal_ssl s then
           with_TemporaryDirectory (λ td,
             let local_resource_path := td in
             s ← self;
             d ← stage_certs (cert_paths s) local_resource_path;
             set_self (set_cert_paths d);;
             s ← self;
             let mkdir_cmd := "mkdir -p " +:+ resource_path s +:+ " 2>/dev/null" in
             _ ← connect_run (remote_host s) username mkdir_cmd None;
             w ← world;
             let files :=
               map (Py.path_join local_resource_path)
                 (listdir w local_resource_path) in
             connect_scp (remote_host s) username files (resource_path s))
         else mret ());;
        s ← self;
        (if ssh_forward_tunnel_client s then
           with_TemporaryDirectory (λ td,
             let local_resource_path := td in
             _ ← stage_ssh_keys (ssh_forward_credentials_paths s) local_resource_path;
             mret ())
         else mret ());;
        s ← self;
        let c := rewrite_hub_api_url s c in
        let c := rewrite_port port c in
        let remote_cmd := Py.str_join " " c in
        _ ← start_ssh_remote_forward_session;
        p ← exec_notebook remote_cmd;
        set_self (set_pid p);;
        s ← self;
        if pid s <? 0 then mret StartNone
        else mret (StartAt (remote_host s) port)
  end.

(** *** Vocabulary of the statements *)

(** The key file name can be built and both files can be read. *)
Definition identity_readable (s : Spawner) (w : World) : bool :=
  match format_username O (ssh_keyfile s) (user_name s) with
  | Some kf =>
      bool_decide (is_Some (read_private_key O w kf))
      && bool_decide (is_Some (read_certificate O w (kf +:+ "-cert.pub")))
  | None => false
  end.

End Operations.

(** The spawner after [clear_state]. *)
Definition cleared (s : Spawner) : Spawner :=
  set_pid 0 (set_remote_host "remote_host" s).

(** The world after one more logged operation. *)
Definition logged (ev : Event) (w : World) : World :=
  with_trace (λ t, t ++ [ev]) w.

(** The session opened by a signal. *)
Definition signal_session (sig : Z) (s : Spawner) : Event :=
  EvSsh (remote_host s) (user_name s) (signal_command sig (pid s)) None.

(** The session opened by the launch. *)
Definition launch_session (s : Spawner) : Event :=
  EvSsh (remote_host s) (user_name s) "bash -s" (Some (run_script_path s)).

(** Text cut at line feeds, as [str.split] does with that separator. *)
Fixpoint lines_from (s : string) (cur : string) : list string :=
  match s with
  | EmptyString => [cur]
  | String c s' =>
      if Ascii.eqb c "010"%char then cur :: lines_from s' ""
      else lines_from s' (cur +:+ String c "")
  end.

Definition lines (s : string) : list string := lines_from s "".

Fixpoint has_nl (s : string) : bool :=
  match s with
  | EmptyString => false
  | String c s' => Ascii.eqb c "010"%char || has_nl s'
  end.

(** The text of all export statements, one after the other. *)
Fixpoint export_block (env : list (string * string)) : string :=
  match env with
  | [] => ""
  | item :: env' => export_line item +:+ export_block env'
  end.

Definition export_text (item : string * string) : string :=
  "export " +:+ item.1 +:+ "=" +:+ item.2.

(** *** Vocabulary of the further statements *)

Fixpoint has_percent (s : string) : bool :=
  match s with
  | EmptyString => false
  | String c s' => Ascii.eqb c "%"%char || has_percent s'
  end.

(** The file that holds the tunnel script, the ssh command in it, and its
    text for a private key file [key]. *)
Definition forward_run_script (s : Spawner) : string :=
  "/tmp/" +:+ user_name s +:+ "_ssh_remote_forward_run.sh".

Definition backtunnel_command (s : Spawner) (key : string) : string :=
  "ssh -fNT -R " +:+ hub_api_port s +:+ ":" +:+ hub_api_interface s +:+ ":"
    +:+ hub_api_port s +:+ " -R " +:+ Py.fmt_d (hub_port s) +:+ ":"
    +:+ hub_ip s +:+ ":" +:+ Py.fmt_d (hub_port s) +:+ " " +:+ user_name s
    +:+ "@" +:+ remote_host s +:+ " -i " +:+ key.

Definition forward_script (s : Spawner) (key : string) : string :=
  "#!/bin/bash" +:+ Py.nl +:+ backtunnel_command s key
    +:+ " < /dev/null >> ." +:+ user_name s
    +:+ "_ssh_remote_forward.log 2>&1 & pid=$!" +:+ Py.nl.

(** Operations that go to a remote host. *)
Definition is_remote (ev : Event) : bool :=
  match ev with
  | EvSsh _ _ _ _ | EvScp _ _ _ _ => true
  | EvChmod _ _ | EvSubprocess _ => false
  end.

(** [env[k]] on a dict read in insertion order. *)
Fixpoint alookup (k : string) (env : list (string * string)) : option string :=
  match env with
  | [] => None
  | (k', v) :: env' => if String.eqb k' k then Some v else alookup k env'
  end.

End Spawner.

(** ** A concrete hub, used to run the model *)

Module Scenario.

Import Spawner.

(** A transport that answers the port helper with [port_out], the launch
    script with [pid_out] and a signal with exit status [sig_status]. *)
Definition oracle (port_out pid_out : string) (sig_status : option Z) : Oracle := {|
  format_username := λ template _, Some template;
  read_private_key := λ _ _, Some "KEY";
  read_certificate := λ _ _, Some "CERT";
  randbelow := λ _ _, 0%nat;
  ssh_run := λ _ _ _ command _,
    if String.eqb command "bash -s" then Some (mkRunResult pid_out "" (Some 0))
    else if Py.startswith command "kill" then Some (mkRunResult "" "" sig_status)
    else Some (mkRunResult port_out "" (Some 0));
  scp := λ _ _ _ _ _, true;
  expanduser := λ p,
    if Py.startswith p "~/"
    then "/home/hub" +:+ String.substring 1 (String.length p - 1) p else p;
  mkdtemp := λ _, "/tmp/tmpabc";
  open_w := λ _ _, true;
  chmod_answer := λ _ _ _, true;
  subprocess_run := λ _ _, true;
  super_get_env := [("LANG", "C"); ("PATH", "/bin"); ("JUPYTERHUB_USER", "ann")];
  get_args := ["--port=0"; "--hub-api-url=http://127.0.0.1:8081/hub/api"];
  super_get_state := ∅;
|}.

Definition spawner (hosts : list string) (ssl tunnel : bool) : Spawner := {|
  remote_hosts := hosts;
  remote_host := "remote_host";
  remote_port := "22";
  path := "/usr/bin:/bin";
  remote_port_command := "/usr/bin/python /usr/local/bin/get_port.py";
  hub_public_host := "hub.example.org";
  hub_api_url := "http://hub:8081/hub/api";
  hub_api_port := "8081";
  hub_api_interface := "0.0.0.0";
  hub_activity_url := "http://hub:8081/hub/api/users/ann/activity";
  ssh_keyfile := "~/.ssh/id_rsa";
  pid := 0;
  resource_path := ".jupyterhub-resources";
  ssh_forward_tunnel_client := tunnel;
  ssh_forward_tunnel_client_path := "~/.ssh";
  ssh_forward_credentials_paths := 1%nat;
  user_name := "ann";
  internal_ssl := ssl;
  hub_self_api_url := "http://127.0.0.1:8081/hub/api";
  hub_port := 8000;
  hub_ip := "127.0.0.1";
  cmd := ["jupyterhub-singleuser"];
  cert_paths := 0%nat;
|}.

Definition tls_paths : gmap string string :=
  <["keyfile" := "~/ssl/ann.key"]>
    (<["certfile" := "~/ssl/ann.crt"]>
       (<["cafile" := "~/ssl/ca.crt"]> (<["note" := "~/kept"]> ∅))).

Definition tunnel_paths : gmap string string :=
  <["private_key_file" := "~/keys/fw"]>
    (<["public_key_file" := "~/keys/fw.pub"]> (<["note" := "~/kept"]> ∅)).

Definition world : World := {|
  w_heap := <[0%nat := tls_paths]> (<[1%nat := tunnel_paths]> ∅);
  w_fs :=
    <["/home/hub/ssl/ann.key" := "K"]>
      (<["/home/hub/ssl/ann.crt" := "C"]>
         (<["/home/hub/ssl/ca.crt" := "CA"]>
            (<["/home/hub/keys/fw" := "P"]>
               (<["/home/hub/keys/fw.pub" := "PUB"]> ∅))));
  w_dirs := {["/tmp"; "/stage"]};
  w_trace := [];
|}.

(** A hub in which something is broken: no host can be reached, the key
    file cannot be read, files cannot be written, the mode of a file cannot
    be changed, or programs cannot be started. *)
Definition faulty (reachable keys writable modes programs : bool)
    (port_out pid_out : string) : Oracle := {|
  format_username := λ template _, Some template;
  read_private_key := λ _ _, if keys then Some "KEY" else None;
  read_certificate := λ _ _, Some "CERT";
  randbelow := λ _ _, 0%nat;
  ssh_run := λ _ _ _ command _,
    if reachable then
      if String.eqb command "bash -s" then Some (mkRunResult pid_out "" (Some 0))
      else Some (mkRunResult port_out "" (Some 0))
    else None;
  scp := λ _ _ _ _ _, reachable;
  expanduser := λ p, p;
  mkdtemp := λ _, "/tmp/tmpabc";
  open_w := λ _ _, writable;
  chmod_answer := λ _ _ _, modes;
  subprocess_run := λ _ _, programs;
  super_get_env := [("LANG", "C")];
  get_args := ["--port=0"];
  super_get_state := ∅;
|}.

End Scenario.

(** * Properties *)

Import Spawner.

(** ** Running the monad *)

Lemma bind_run {A B} (m : M A) (f : A → M B) (st : St) :
  (m ≫= f) st = match m st with
                | (Ok a, st') => f a st'
                | (Raise e, st') => (Raise e, st')
                end.
Proof. reflexivity. Qed.

Lemma ret_run {A} (a : A) (st : St) : (mret a : M A) st = (Ok a, st).
Proof. reflexivity. Qed.

Lemma fmap_run {A B} (f : A → B) (m : M A) (st : St) :
  (f <$> m) st = match m st with
                 | (Ok a, st') => (Ok (f a), st')
                 | (Raise e, st') => (Raise e, st')
                 end.
Proof. reflexivity. Qed.

Ltac mrun :=
  repeat first
    [ rewrite bind_run
    | rewrite ret_run
    | rewrite fmap_run
    | progress cbn [self world set_self set_world raise lift_opt log_event
                    finally fst snd with_trace with_heap with_fs with_dirs
                    w_heap w_fs w_dirs w_trace logged] ].

Lemma read_identity_frame O s w username :
  ∃ r, read_identity O username (s, w) = (r, (s, w)).
Proof.
  unfold read_identity. mrun.
  destruct (format_username O (ssh_keyfile s) username); mrun; [|eauto].
  destruct (read_private_key O w _); mrun; [|eauto].
  destruct (read_certificate O w _); mrun; eauto.
Qed.

Lemma read_identity_ok O s w :
  identity_readable O s w = true →
  ∃ kc, read_identity O (user_name s) (s, w) = (Ok kc, (s, w)).
Proof.
  unfold identity_readable, read_identity. intros H.
  destruct (format_username O (ssh_keyfile s) (user_name s)) as [kf|] eqn:Hkf; [|done].
  apply andb_true_iff in H as [[k Hk]%bool_decide_eq_true [c Hc]%bool_decide_eq_true].
  exists (k, c). mrun. rewrite Hkf. mrun. rewrite Hk. mrun. rewrite Hc. mrun.
  reflexivity.
Qed.

Lemma clear_state_run st : clear_state st = (Ok (), (cleared st.1, st.2)).
Proof. destruct st. reflexivity. Qed.

(** ** Strings *)

Lemma append_assoc (a b c : string) : (a +:+ b) +:+ c = a +:+ (b +:+ c).
Proof.
  induction a as [|x a IH]; [reflexivity|].
  change (String x ((a +:+ b) +:+ c) = String x (a +:+ b +:+ c)). by f_equal.
Qed.

Lemma append_nil_r (a : string) : a +:+ "" = a.
Proof.
  induction a as [|x a IH]; [reflexivity|].
  change (String x (a +:+ "") = String x a). by f_equal.
Qed.

Lemma has_nl_append (a b : string) : has_nl (a +:+ b) = has_nl a || has_nl b.
Proof.
  induction a as [|x a IH]; [reflexivity|].
  change (Ascii.eqb x "010" || has_nl (a +:+ b)
          = Ascii.eqb x "010" || has_nl a || has_nl b).
  rewrite IH. by rewrite orb_assoc.
Qed.

(** ** Decimal text and [int] *)

Lemma chars_app (a b : string) : Py.chars (a +:+ b) = Py.chars a ++ Py.chars b.
Proof.
  induction a as [|x a IH]; [reflexivity|].
  change (byte_of_ascii x :: Py.chars (a +:+ b)
          = byte_of_ascii x :: Py.chars a ++ Py.chars b).
  by f_equal.
Qed.

Lemma digit_char_value (n : Z) :
  Py.digit_value (byte_of_ascii (Py.digit_char n)) = Some (n mod 10).
Proof.
  unfold Py.digit_char.
  assert (H : 0 ≤ n mod 10 < 10) by (apply Z.mod_pos_bound; lia).
  assert (Hd : n mod 10 = 0 ∨ n mod 10 = 1 ∨ n mod 10 = 2 ∨ n mod 10 = 3
               ∨ n mod 10 = 4 ∨ n mod 10 = 5 ∨ n mod 10 = 6 ∨ n mod 10 = 7
               ∨ n mod 10 = 8 ∨ n mod 10 = 9) by lia.
  destruct Hd as [->|[->|[->|[->|[->|[->|[->|[->|[->| ->]]]]]]]]]; reflexivity.
Qed.

Lemma digit_not_space (b : byte) (d : Z) :
  Py.digit_value b = Some d →
  Py.is_space b = false
  ∧ (Byte.to_N b =? 45)%N = false
  ∧ (Byte.to_N b =? 43)%N = false.
Proof.
  unfold Py.digit_value, Py.is_space.
  destruct ((48 <=? Byte.to_N b) && (Byte.to_N b <=? 57))%N eqn:E; [|done].
  intros _. apply andb_true_iff in E as [E1%N.leb_le E2%N.leb_le].
  repeat split.
  - rewrite !orb_false_iff. repeat split.
    + apply andb_false_iff. right. apply N.leb_gt. lia.
    + apply N.eqb_neq. lia.
    + apply N.eqb_neq. lia.
    + apply N.eqb_neq. lia.
  - apply N.eqb_neq. lia.
  - apply N.eqb_neq. lia.
Qed.

Lemma digits_pos_step (f : nat) (n : Z) (acc : string) :
  Py.digits_pos (S f) n acc
  = if n / 10 =? 0 then String (Py.digit_char n) acc
    else Py.digits_pos f (n / 10) (String (Py.digit_char n) acc).
Proof. reflexivity. Qed.

(** The text of a number starts with a digit. *)
Lemma digits_pos_head (f : nat) (n : Z) (acc : string) :
  ∃ m s, Py.digits_pos (S f) n acc = String (Py.digit_char m) s.
Proof.
  revert n acc. induction f as [|f IH]; intros n acc; rewrite digits_pos_step.
  - destruct (n / 10 =? 0); cbn [Py.digits_pos]; eauto.
  - destruct (n / 10 =? 0); [eauto|]. apply IH.
Qed.

(** Reading back the digits written for [n] gives [n]. *)
Lemma scan_digits_pos (f : nat) (n : Z) (acc : string) (rest : list byte) (seen : bool) :
  0 ≤ n < 10 ^ Z.of_nat (S f) →
  Py.scan_digits (Py.chars (Py.digits_pos (S f) n acc) ++ rest) 0 seen false
  = Py.scan_digits (Py.chars acc ++ rest) n true false.
Proof.
  revert n acc seen. induction f as [|f IH]; intros n acc seen Hn;
    rewrite digits_pos_step.
  - assert (Hq : n / 10 = 0) by (apply Z.div_small; lia).
    rewrite Hq. cbn [Z.eqb].
    change (Py.chars (String (Py.digit_char n) acc) ++ rest)
      with (byte_of_ascii (Py.digit_char n) :: (Py.chars acc ++ rest)).
    cbn [Py.scan_digits]. rewrite digit_char_value.
    do 2 f_equal. rewrite Z.mod_small; lia.
  - destruct (Z.eqb_spec (n / 10) 0) as [Hq|Hq].
    + change (Py.chars (String (Py.digit_char n) acc) ++ rest)
        with (byte_of_ascii (Py.digit_char n) :: (Py.chars acc ++ rest)).
      cbn [Py.scan_digits]. rewrite digit_char_value.
      do 2 f_equal. rewrite (Z.div_mod n 10) at 2 by lia. lia.
    + rewrite IH.
      * change (Py.chars (String (Py.digit_char n) acc) ++ rest)
          with (byte_of_ascii (Py.digit_char n) :: (Py.chars acc ++ rest)).
        cbn [Py.scan_digits]. rewrite digit_char_value.
        do 2 f_equal. rewrite (Z.div_mod n 10) at 3 by lia. lia.
      * split; [apply Z.div_pos; lia|].
        apply Z.div_lt_upper_bound; [lia|].
        rewrite Nat2Z.inj_succ, Z.pow_succ_r in Hn by lia. lia.
Qed.

Lemma fuel_enough (n : Z) :
  0 ≤ n → n < 10 ^ Z.of_nat (S (Z.to_nat (Z.log2 n))).
Proof.
  intros Hn. rewrite Nat2Z.inj_succ, Z2Nat.id by apply Z.log2_nonneg.
  destruct (Z.eq_dec n 0) as [->|Hz]; [reflexivity|].
  destruct (Z.log2_spec n) as [_ Hlt]; [lia|].
  eapply Z.lt_le_trans; [exact Hlt|].
  apply Z.pow_le_mono_l. pose proof (Z.log2_nonneg n). lia.
Qed.

Lemma int_of_digits (n : Z) (f : nat) :
  0 ≤ n < 10 ^ Z.of_nat (S f) →
  ∃ l, Py.chars (Py.digits_pos (S f) n "" +:+ Py.nl) = l
       ∧ Py.skip_space l = l
       ∧ Py.int_of_chars l = Some n
       ∧ Py.scan_digits l 0 false false = Some (n, Py.chars Py.nl).
Proof.
  intros Hn. eexists. split; [reflexivity|].
  rewrite chars_app.
  assert (Hscan : Py.scan_digits (Py.chars (Py.digits_pos (S f) n "") ++ Py.chars Py.nl)
                    0 false false = Some (n, Py.chars Py.nl)).
  { rewrite scan_digits_pos by done. reflexivity. }
  destruct (digits_pos_head f n "") as (m & s & Hhead).
  destruct (digit_not_space _ _ (digit_char_value m)) as (Hsp & Hminus & Hplus).
  revert Hscan. rewrite Hhead.
  change (Py.chars (String (Py.digit_char m) s) ++ Py.chars Py.nl)
    with (byte_of_ascii (Py.digit_char m) :: (Py.chars s ++ Py.chars Py.nl)).
  intros Hscan.
  assert (Hskip : Py.skip_space (byte_of_ascii (Py.digit_char m) :: (Py.chars s ++ Py.chars Py.nl))
                  = byte_of_ascii (Py.digit_char m) :: (Py.chars s ++ Py.chars Py.nl)).
  { cbn [Py.skip_space]. by rewrite Hsp. }
  split; [exact Hskip|]. split; [|exact Hscan].
  unfold Py.int_of_chars. rewrite Hskip, Hminus, Hplus, Hscan. reflexivity.
Qed.

(** What [%d] writes, followed by a line feed, is read back by [int] as the
    same integer. *)
Lemma int_of_str_fmt_d (z : Z) :
  Py.int_of_str (Py.fmt_d z +:+ Py.nl) = Some z.
Proof.
  unfold Py.int_of_str, Py.fmt_d. cbn zeta. destruct (Z.ltb_spec z 0) as [Hneg|Hpos].
  - destruct (int_of_digits (Z.abs z) (Z.to_nat (Z.log2 (Z.abs z))))
      as (l & Hl & Hskip & _ & Hscan).
    { split; [lia|]. apply fuel_enough. lia. }
    rewrite append_assoc.
    change (Py.chars ("-" +:+ ?x)) with (byte_of_ascii "-" :: Py.chars x).
    rewrite Hl. unfold Py.int_of_chars.
    change (Py.skip_space (byte_of_ascii "-" :: l)) with (byte_of_ascii "-" :: l).
    cbv beta iota.
    lazymatch goal with
    | |- context [N.eqb ?a 45%N] => change (N.eqb a 45%N) with true
    end.
    cbn iota.
    rewrite Hscan. cbn [Py.skip_space Py.chars]. f_equal. lia.
  - destruct (int_of_digits (Z.abs z) (Z.to_nat (Z.log2 (Z.abs z))))
      as (l & Hl & _ & Hint & _).
    { split; [lia|]. apply fuel_enough. lia. }
    rewrite Hl, Hint. f_equal. lia.
Qed.

(** ** Signals *)

(** With readable credentials a signal opens one session, runs the kill
    command there and reports whether its exit status was 0; a session that
    cannot be had raises and leaves the spawner as it was. *)
Lemma remote_signal_run O sig s w :
  identity_readable O s w = true →
  remote_signal O sig (s, w) =
    match ssh_run O w (remote_host s) (user_name s) (signal_command sig (pid s)) None with
    | Some r =>
        (Ok (bool_decide (exit_status r = Some 0)), (s, logged (signal_session sig s) w))
    | None => (Raise ConnectionError, (s, logged (signal_session sig s) w))
    end.
Proof.
  intros [kc Hid]%read_identity_ok.
  unfold remote_signal, get_remote_user. mrun. rewrite Hid.
  unfold connect_run. mrun.
  destruct (ssh_run O w _ _ _ _); mrun; reflexivity.
Qed.

Lemma poll_no_pid O s w :
  pid s = 0 → poll O (s, w) = (Ok (Some 0), (cleared s, w)).
Proof.
  intros H. unfold poll. mrun. rewrite H. cbn [Py.truthy_int Z.eqb negb].
  mrun. rewrite clear_state_run. reflexivity.
Qed.

(** C1. [poll] with [pid = 0] clears the state and answers exit code 0 with
    no remote operation; with [pid ≠ 0] it opens one session that runs
    [kill -s 0 pid], answers "still running" ([None]) exactly when the exit
    status is 0, and otherwise clears the state and answers exit code 0. *)
Theorem poll_spec (O : Oracle) (s : Spawner) (w : World) :
  (pid s = 0 → poll O (s, w) = (Ok (Some 0), (cleared s, w)))
  ∧ (∀ r,
       pid s ≠ 0 →
       identity_readable O s w = true →
       ssh_run O w (remote_host s) (user_name s)
         ("kill -s 0 " +:+ Py.fmt_d (pid s) +:+ " < /dev/null") None = Some r →
       let w' := logged (EvSsh (remote_host s) (user_name s)
                   ("kill -s 0 " +:+ Py.fmt_d (pid s) +:+ " < /dev/null") None) w in
       poll O (s, w) =
         if bool_decide (exit_status r = Some 0)
         then (Ok None, (s, w'))
         else (Ok (Some 0), (cleared s, w'))).
Proof.
  split.
  - apply poll_no_pid.
  - intros r Hpid Hid Hrun w'. unfold poll. mrun.
    unfold Py.truthy_int. destruct (Z.eqb_spec (pid s) 0) as [|_]; [done|].
    cbn [negb]. mrun. rewrite remote_signal_run by done.
    change (signal_command 0 (pid s))
      with ("kill -s 0 " +:+ Py.fmt_d (pid s) +:+ " < /dev/null").
    rewrite Hrun. fold w'.
    destruct (bool_decide (exit_status r = Some 0)); cbn [negb]; mrun;
      [reflexivity|]. rewrite clear_state_run. reflexivity.
Qed.

Lemma poll_spec_witness :
  poll (Scenario.oracle "" "" (Some 0))
       (set_pid 1234 (Scenario.spawner ["h1"] false false), Scenario.world)
  = (Ok None,
     (set_pid 1234 (Scenario.spawner ["h1"] false false),
      logged (EvSsh "remote_host" "ann" "kill -s 0 1234 < /dev/null" None)
        Scenario.world))
  ∧ poll (Scenario.oracle "" "" (Some 1))
         (Scenario.spawner ["h1"] false false, Scenario.world)
    = (Ok (Some 0), (cleared (Scenario.spawner ["h1"] false false), Scenario.world)).
Proof.
  split.
  - apply (proj2 (poll_spec (Scenario.oracle "" "" (Some 0))
             (set_pid 1234 (Scenario.spawner ["h1"] false false)) Scenario.world)
             (mkRunResult "" "" (Some 0))).
    + vm_compute. discriminate.
    + reflexivity.
    + reflexivity.
  - apply (proj1 (poll_spec (Scenario.oracle "" "" (Some 1))
             (Scenario.spawner ["h1"] false false) Scenario.world)).
    reflexivity.
Defined.

(** C2. [stop] sends signal 15 to the tracked process over one session and
    then clears the state (pid 0, host back to the sentinel), whatever the
    remote command gave back, a non-zero exit status included. *)
Theorem stop_spec (O : Oracle) (s : Spawner) (w : World) (r : RunResult) :
  identity_readable O s w = true →
  ssh_run O w (remote_host s) (user_name s)
    ("kill -s 15 " +:+ Py.fmt_d (pid s) +:+ " < /dev/null") None = Some r →
  ∃ s',
    stop O (s, w) =
      (Ok (), (s', logged (EvSsh (remote_host s) (user_name s)
                     ("kill -s 15 " +:+ Py.fmt_d (pid s) +:+ " < /dev/null") None) w))
    ∧ pid s' = 0
    ∧ remote_host s' = default_remote_host.
Proof.
  intros Hid Hrun. exists (cleared s). split; [|done].
  unfold stop. mrun. rewrite remote_signal_run by done.
  change (signal_command 15 (pid s))
    with ("kill -s 15 " +:+ Py.fmt_d (pid s) +:+ " < /dev/null").
  rewrite Hrun. rewrite clear_state_run. reflexivity.
Qed.

Lemma stop_spec_witness :
  ∃ s',
    stop (Scenario.oracle "" "" (Some 1))
         (set_remote_host "h1" (set_pid 1234 (Scenario.spawner ["h1"] false false)),
          Scenario.world)
    = (Ok (), (s', logged (EvSsh "h1" "ann" "kill -s 15 1234 < /dev/null" None)
                     Scenario.world))
    ∧ pid s' = 0
    ∧ remote_host s' = default_remote_host.
Proof.
  apply (stop_spec (Scenario.oracle "" "" (Some 1))
           (set_remote_host "h1" (set_pid 1234 (Scenario.spawner ["h1"] false false)))
           Scenario.world (mkRunResult "" "" (Some 1))).
  - reflexivity.
  - reflexivity.
Defined.

(** C9. [stop] has no shortcut for [pid = 0], unlike [poll]: it opens a
    session and runs [kill -s 15 0 < /dev/null] first, and clears the state
    after the command came back; [poll] in the same state opens none. *)
Theorem stop_pid0_spec (O : Oracle) (s : Spawner) (w : World) :
  pid s = 0 →
  identity_readable O s w = true →
  let ev := EvSsh (remote_host s) (user_name s) "kill -s 15 0 < /dev/null" None in
  w_trace (stop O (s, w)).2.2 = w_trace w ++ [ev]
  ∧ (∀ r, ssh_run O w (remote_host s) (user_name s) "kill -s 15 0 < /dev/null" None
            = Some r →
          stop O (s, w) = (Ok (), (cleared s, logged ev w)))
  ∧ (ssh_run O w (remote_host s) (user_name s) "kill -s 15 0 < /dev/null" None = None →
     stop O (s, w) = (Raise ConnectionError, (s, logged ev w)))
  ∧ w_trace (poll O (s, w)).2.2 = w_trace w.
Proof.
  intros Hpid Hid ev.
  assert (Hstop : stop O (s, w) =
    match ssh_run O w (remote_host s) (user_name s) "kill -s 15 0 < /dev/null" None with
    | Some r => (Ok (), (cleared s, logged ev w))
    | None => (Raise ConnectionError, (s, logged ev w))
    end).
  { unfold stop. mrun. rewrite remote_signal_run by done.
    unfold ev, signal_session, signal_command. rewrite Hpid.
    change (Py.fmt_d 15) with "15". change (Py.fmt_d 0) with "0".
    cbn [String.append].
    destruct (ssh_run O w _ _ _ _); [|reflexivity].
    rewrite clear_state_run. reflexivity. }
  repeat split.
  - rewrite Hstop. destruct (ssh_run O w _ _ _ _); reflexivity.
  - intros r Hr. rewrite Hstop, Hr. reflexivity.
  - intros Hr. rewrite Hstop, Hr. reflexivity.
  - rewrite (poll_no_pid O s w Hpid). reflexivity.
Qed.

Lemma stop_pid0_spec_witness :
  stop (Scenario.oracle "" "" (Some 1))
       (Scenario.spawner ["h1"] false false, Scenario.world)
  = (Ok (), (cleared (Scenario.spawner ["h1"] false false),
             logged (EvSsh "remote_host" "ann" "kill -s 15 0 < /dev/null" None)
               Scenario.world)).
Proof.
  apply (proj1 (proj2 (stop_pid0_spec (Scenario.oracle "" "" (Some 1))
            (Scenario.spawner ["h1"] false false) Scenario.world
            eq_refl eq_refl))
           (mkRunResult "" "" (Some 1))).
  reflexivity.
Defined.

(** ** Choosing the host *)

(** C7. Over a one-element pool the choice is that element; over an empty
    pool it fails (the [IndexError] of [random.choice], which the
    specification files under ConfigurationError); over a non-empty pool it
    is an element of the pool; in each case the spawner and the world are
    left as they were. *)
Theorem choose_remote_host_spec (O : Oracle) (s : Spawner) (w : World) :
  (∀ h, remote_hosts s = [h] → choose_remote_host O (s, w) = (Ok h, (s, w)))
  ∧ (remote_hosts s = [] → choose_remote_host O (s, w) = (Raise IndexError, (s, w)))
  ∧ (remote_hosts s ≠ [] →
     ∃ h, h ∈ remote_hosts s ∧ choose_remote_host O (s, w) = (Ok h, (s, w))).
Proof.
  unfold choose_remote_host. mrun. repeat split.
  - intros h ->. mrun. cbn [length]. rewrite Nat.mod_1_r. reflexivity.
  - intros ->. reflexivity.
  - intros Hne. destruct (remote_hosts s) as [|h0 t] eqn:Hl; [done|]. mrun.
    eexists. split; [|reflexivity].
    apply list_elem_of_In, nth_In, Nat.mod_upper_bound. done.
Qed.

Lemma choose_remote_host_spec_witness :
  choose_remote_host (Scenario.oracle "" "" None)
    (Scenario.spawner ["h1"] false false, Scenario.world)
  = (Ok "h1", (Scenario.spawner ["h1"] false false, Scenario.world))
  ∧ choose_remote_host (Scenario.oracle "" "" None)
      (Scenario.spawner [] false false, Scenario.world)
    = (Raise IndexError, (Scenario.spawner [] false false, Scenario.world))
  ∧ ∃ h, h ∈ ["h1"; "h2"]
      ∧ choose_remote_host (Scenario.oracle "" "" None)
          (Scenario.spawner ["h1"; "h2"] false false, Scenario.world)
        = (Ok h, (Scenario.spawner ["h1"; "h2"] false false, Scenario.world)).
Proof.
  split; [|split].
  - apply (proj1 (choose_remote_host_spec (Scenario.oracle "" "" None)
             (Scenario.spawner ["h1"] false false) Scenario.world)).
    reflexivity.
  - apply (proj1 (proj2 (choose_remote_host_spec (Scenario.oracle "" "" None)
             (Scenario.spawner [] false false) Scenario.world))).
    reflexivity.
  - apply (proj2 (proj2 (choose_remote_host_spec (Scenario.oracle "" "" None)
             (Scenario.spawner ["h1"; "h2"] false false) Scenario.world))).
    simpl. discriminate.
Defined.

(** ** Persisted state *)

Lemma get_state_run O s w :
  get_state O (s, w) =
    (Ok (let state := super_get_state O in
         let state :=
           if Py.truthy_int (pid s) then <["pid" := VInt (pid s)]> state else state in
         if Py.truthy_str (remote_host s)
         then <["remote_host" := VStr (remote_host s)]> state else state),
     (s, w)).
Proof. reflexivity. Qed.

Lemma truthy_int_true z : Py.truthy_int z = true ↔ z ≠ 0.
Proof.
  unfold Py.truthy_int. destruct (Z.eqb_spec z 0); cbn; split; congruence.
Qed.

Lemma truthy_str_true x : Py.truthy_str x = true ↔ x ≠ "".
Proof.
  unfold Py.truthy_str. destruct (String.eqb_spec x ""); cbn; split; congruence.
Qed.

(** C5, as the code has it.  The dump holds [pid] exactly when the pid is
    not 0, and [remote_host] exactly when the host is not the empty string;
    the sentinel host is not empty, so it is dumped like any other. *)
Theorem get_state_keys (O : Oracle) (s : Spawner) (w : World) :
  super_get_state O !! "pid" = None →
  super_get_state O !! "remote_host" = None →
  ∃ state,
    get_state O (s, w) = (Ok state, (s, w))
    ∧ (state !! "pid" = if bool_decide (pid s = 0) then None else Some (VInt (pid s)))
    ∧ (state !! "remote_host" =
         if bool_decide (remote_host s = "") then None else Some (VStr (remote_host s)))
    ∧ (remote_host s = default_remote_host →
       state !! "remote_host" = Some (VStr default_remote_host)).
Proof.
  intros Hp Hh. eexists. split; [apply get_state_run|]. cbn zeta.
  assert (Hpid : ∀ m : gmap string PyVal,
    m !! "pid" = None →
    (if Py.truthy_int (pid s) then <["pid" := VInt (pid s)]> m else m) !! "pid"
    = if bool_decide (pid s = 0) then None else Some (VInt (pid s))).
  { intros m Hm. destruct (decide (pid s = 0)) as [Hz|Hz].
    - rewrite bool_decide_eq_true_2, Hz by done. exact Hm.
    - rewrite bool_decide_eq_false_2 by done.
      apply truthy_int_true in Hz. rewrite Hz. apply lookup_insert_eq. }
  assert (Hhost : ∀ m : gmap string PyVal,
    m !! "remote_host" = None →
    (if Py.truthy_str (remote_host s)
     then <["remote_host" := VStr (remote_host s)]> m else m) !! "remote_host"
    = if bool_decide (remote_host s = "") then None else Some (VStr (remote_host s))).
  { intros m Hm. destruct (decide (remote_host s = "")) as [Hz|Hz].
    - rewrite bool_decide_eq_true_2, Hz by done. exact Hm.
    - rewrite bool_decide_eq_false_2 by done.
      apply truthy_str_true in Hz. rewrite Hz. apply lookup_insert_eq. }
  split; [|split].
  - destruct (Py.truthy_str (remote_host s)).
    + rewrite lookup_insert_ne by done. by apply Hpid.
    + by apply Hpid.
  - apply Hhost. destruct (Py.truthy_int (pid s)); [|done].
    by rewrite lookup_insert_ne.
  - intros Hdef. rewrite Hhost.
    + rewrite Hdef. reflexivity.
    + destruct (Py.truthy_int (pid s)); [|done]. by rewrite lookup_insert_ne.
Qed.

Lemma get_state_keys_witness :
  ∃ state,
    get_state (Scenario.oracle "" "" None)
      (cleared (Scenario.spawner ["h1"] false false), Scenario.world)
    = (Ok state, (cleared (Scenario.spawner ["h1"] false false), Scenario.world))
    ∧ state !! "pid" = None
    ∧ state !! "remote_host" = Some (VStr "remote_host")
    ∧ (default_remote_host = default_remote_host →
       state !! "remote_host" = Some (VStr default_remote_host)).
Proof.
  apply (get_state_keys (Scenario.oracle "" "" None)
           (cleared (Scenario.spawner ["h1"] false false)) Scenario.world).
  - reflexivity.
  - reflexivity.
Defined.

(** C5, as the specification words it, fails: a spawner whose host is the
    sentinel still dumps the [remote_host] key. *)
Lemma get_state_dumps_sentinel_host :
  ¬ (∀ (O : Oracle) (s : Spawner) (w : World) (state : gmap string PyVal),
       super_get_state O = ∅ →
       get_state O (s, w) = (Ok state, (s, w)) →
       (is_Some (state !! "pid") → pid s ≠ 0)
       ∧ (is_Some (state !! "remote_host") → remote_host s ≠ default_remote_host)).
Proof.
  intros H.
  destruct (H (Scenario.oracle "" "" None)
              (cleared (Scenario.spawner ["h1"] false false)) Scenario.world
              {["remote_host" := VStr "remote_host"]} eq_refl eq_refl) as [_ Hhost].
  apply Hhost; [|reflexivity]. rewrite lookup_singleton_eq. eauto.
Qed.

Lemma load_state_run (state : gmap string PyVal) s w :
  load_state state (s, w) =
    match state !! "pid" with
    | Some (VStr _) => (Raise TraitError, (s, w))
    | Some (VInt z) =>
        match state !! "remote_host" with
        | Some (VInt _) => (Raise TraitError, (set_pid z s, w))
        | Some (VStr h) => (Ok (), (set_remote_host h (set_pid z s), w))
        | None => (Ok (), (set_pid z s, w))
        end
    | None =>
        match state !! "remote_host" with
        | Some (VInt _) => (Raise TraitError, (s, w))
        | Some (VStr h) => (Ok (), (set_remote_host h s, w))
        | None => (Ok (), (s, w))
        end
    end.
Proof.
  unfold load_state. mrun.
  destruct (state !! "pid") as [[z|x]|]; mrun; try reflexivity;
    destruct (state !! "remote_host") as [[z'|h]|]; reflexivity.
Qed.

(** C6. Restoring a mapping onto a spawner whose fields hold their defaults
    (as they do after construction and after [clear_state]): a missing
    [pid] key leaves the pid at 0, a missing [remote_host] key leaves the
    host at the sentinel, whatever else the mapping holds. *)
Theorem load_state_missing_keys (state : gmap string PyVal) (s : Spawner) (w : World) :
  let s' := (load_state state (s, w)).2.1 in
  (state !! "pid" = None → pid s = default_pid → pid s' = default_pid)
  ∧ (state !! "remote_host" = None →
     remote_host s = default_remote_host → remote_host s' = default_remote_host).
Proof.
  cbn zeta. rewrite load_state_run. split.
  - intros -> Hs. destruct (state !! "remote_host") as [[z'|h]|]; exact Hs.
  - intros -> Hs. destruct (state !! "pid") as [[z|x]|]; exact Hs.
Qed.

Lemma load_state_missing_keys_witness :
  pid (load_state {["remote_host" := VStr "h1"]}
         (Scenario.spawner ["h1"] false false, Scenario.world)).2.1 = 0
  ∧ remote_host (load_state {["pid" := VInt 1234]}
         (Scenario.spawner ["h1"] false false, Scenario.world)).2.1 = "remote_host".
Proof.
  split.
  - apply (proj1 (load_state_missing_keys {["remote_host" := VStr "h1"]}
                    (Scenario.spawner ["h1"] false false) Scenario.world)).
    + reflexivity.
    + reflexivity.
  - apply (proj2 (load_state_missing_keys {["pid" := VInt 1234]}
                    (Scenario.spawner ["h1"] false false) Scenario.world)).
    + reflexivity.
    + reflexivity.
Defined.

(** A missing key leaves the field as it was, default or not. *)
Lemma load_state_frame (state : gmap string PyVal) (s : Spawner) (w : World) :
  let s' := (load_state state (s, w)).2.1 in
  (state !! "pid" = None → pid s' = pid s)
  ∧ (state !! "remote_host" = None → remote_host s' = remote_host s).
Proof.
  cbn zeta. rewrite load_state_run. split.
  - intros ->. destruct (state !! "remote_host") as [[z'|h]|]; reflexivity.
  - intros ->. destruct (state !! "pid") as [[z|x]|]; reflexivity.
Qed.

(** ** Port negotiation *)

Lemma remote_random_port_run O s w :
  identity_readable O s w = true →
  let w' := logged (EvSsh (remote_host s) (user_name s) (remote_port_command s) None) w in
  remote_random_port O (s, w) =
    match ssh_run O w (remote_host s) (user_name s) (remote_port_command s) None with
    | None => (Raise ConnectionError, (s, w'))
    | Some r =>
        match Py.int_of_str (stdout r) with
        | Some port => (Ok (remote_host s, Some port), (s, w'))
        | None => (Raise ValueError, (s, w'))
        end
    end.
Proof.
  intros [kc Hid]%read_identity_ok w'.
  unfold remote_random_port, get_remote_user. mrun. rewrite Hid.
  unfold connect_run. mrun.
  destruct (ssh_run O w _ _ _ _) as [r|]; mrun; [|reflexivity].
  unfold Py.differs_from_empty_bytes. mrun.
  destruct (Py.int_of_str (stdout r)); mrun; reflexivity.
Qed.

(** C3, where the code parts from it.  Port negotiation opens one session
    and hands the output to [int]: an integer is returned (["54321\n"] gives
    54321) and anything else raises the parse error.  That includes the
    empty output, for which the docstring promises [None]: the output is a
    text, the test against the empty bytes literal holds for every text, and
    [int] of the empty text raises.  [start] then raises too, where it was
    to answer [False]. *)
Theorem remote_random_port_empty_output (O : Oracle) (s : Spawner) (w : World)
    (r : RunResult) :
  identity_readable O s w = true →
  ssh_run O w (remote_host s) (user_name s) (remote_port_command s) None = Some r →
  let w' := logged (EvSsh (remote_host s) (user_name s) (remote_port_command s) None) w in
  remote_random_port O (s, w) =
    match Py.int_of_str (stdout r) with
    | Some port => (Ok (remote_host s, Some port), (s, w'))
    | None => (Raise ValueError, (s, w'))
    end
  ∧ Py.int_of_str ("54321" +:+ Py.nl) = Some 54321
  ∧ Py.int_of_str "no port" = None
  ∧ (stdout r = "" →
     remote_random_port O (s, w) = (Raise ValueError, (s, w'))
     ∧ ∀ s0 h,
         choose_remote_host O (s0, w) = (Ok h, (s0, w)) →
         s = set_remote_host h s0 →
         start O (s0, w) = (Raise ValueError, (s, w'))).
Proof.
  intros Hid Hrun w'. split; [|split; [|split]].
  - rewrite remote_random_port_run by done. rewrite Hrun. reflexivity.
  - reflexivity.
  - reflexivity.
  - intros Hout. split.
    + rewrite remote_random_port_run by done. rewrite Hrun, Hout. reflexivity.
    + intros s0 h Hch ->.
      destruct (read_identity_ok O s0 w Hid) as [kc Hkc].
      unfold start. mrun. rewrite Hkc. mrun. rewrite Hch. mrun.
      rewrite remote_random_port_run by done.
      fold w'. rewrite Hrun, Hout. reflexivity.
Qed.

Lemma remote_random_port_empty_output_witness :
  remote_random_port (Scenario.oracle "" "" None)
    (set_remote_host "h1" (Scenario.spawner ["h1"; "h2"] false false), Scenario.world)
  = (Raise ValueError,
     (set_remote_host "h1" (Scenario.spawner ["h1"; "h2"] false false),
      logged (EvSsh "h1" "ann" "/usr/bin/python /usr/local/bin/get_port.py" None)
        Scenario.world))
  ∧ start (Scenario.oracle "" "" None)
      (Scenario.spawner ["h1"; "h2"] false false, Scenario.world)
    = (Raise ValueError,
       (set_remote_host "h1" (Scenario.spawner ["h1"; "h2"] false false),
        logged (EvSsh "h1" "ann" "/usr/bin/python /usr/local/bin/get_port.py" None)
          Scenario.world)).
Proof.
  split.
  - apply (proj1 (proj2 (proj2 (proj2 (remote_random_port_empty_output
             (Scenario.oracle "" "" None)
             (set_remote_host "h1" (Scenario.spawner ["h1"; "h2"] false false))
             Scenario.world (mkRunResult "" "" (Some 0)) eq_refl eq_refl))) eq_refl)).
  - apply (proj2 (proj2 (proj2 (proj2 (remote_random_port_empty_output
             (Scenario.oracle "" "" None)
             (set_remote_host "h1" (Scenario.spawner ["h1"; "h2"] false false))
             Scenario.world (mkRunResult "" "" (Some 0)) eq_refl eq_refl))) eq_refl)
             (Scenario.spawner ["h1"; "h2"] false false) "h1").
    + reflexivity.
    + reflexivity.
Defined.

(** ** Launching *)

Lemma write_file_run O p content s w :
  write_file O p content (s, w) =
    if open_w O w p then (Ok (), (s, with_fs (<[p := content]>) w))
    else (Raise (OSError p), (s, w)).
Proof. unfold write_file. mrun. destruct (open_w O w p); reflexivity. Qed.

Lemma isfile_written (w : World) p content :
  isfile (with_fs (<[p := content]>) w) p = true.
Proof.
  unfold isfile. cbn [with_fs w_fs]. apply bool_decide_eq_true_2.
  rewrite lookup_insert_eq. eauto.
Qed.

Lemma bind_ok {A B} (m : M A) (f : A → M B) (st : St) (b : B) (st' : St) :
  (m ≫= f) st = (Ok b, st') →
  ∃ a st1, m st = (Ok a, st1) ∧ f a st1 = (Ok b, st').
Proof.
  rewrite bind_run. destruct (m st) as [[a|e] st1]; [eauto|discriminate].
Qed.

Lemma exec_notebook_run O command s w :
  identity_readable O s w = true →
  open_w O w (run_script_path s) = true →
  let w1 := with_fs (<[run_script_path s := bash_script_str (exec_env O s) command]>) w in
  let w2 := logged (launch_session s) w1 in
  exec_notebook O command (s, w) =
    match ssh_run O w1 (remote_host s) (user_name s) "bash -s" (Some (run_script_path s)) with
    | None => (Raise ConnectionError, (s, w2))
    | Some r =>
        match Py.int_of_str (stdout r) with
        | Some p => (Ok p, (s, w2))
        | None => (Raise ValueError, (s, w2))
        end
    end.
Proof.
  intros [kc Hid]%read_identity_ok Hw w1 w2.
  unfold exec_notebook, get_remote_user. mrun. rewrite Hid. mrun.
  rewrite write_file_run, Hw. mrun. fold w1.
  unfold w1 at 1. rewrite isfile_written. cbn [negb]. mrun.
  unfold connect_run. mrun. fold w1.
  destruct (ssh_run O w1 _ _ _ _) as [r|]; mrun; [|reflexivity].
  unfold Py.differs_from_empty_bytes. mrun.
  destruct (Py.int_of_str (stdout r)); mrun; reflexivity.
Qed.

(** A launch that returns has read its result off the output. *)
Lemma exec_notebook_ok_output O command s w p st' :
  exec_notebook O command (s, w) = (Ok p, st') →
  ∃ r,
    ssh_run O (with_fs (<[run_script_path s := bash_script_str (exec_env O s) command]>) w)
      (remote_host s) (user_name s) "bash -s" (Some (run_script_path s)) = Some r
    ∧ Py.int_of_str (stdout r) = Some p
    ∧ stdout r ≠ "".
Proof.
  unfold exec_notebook, get_remote_user. intros H.
  apply bind_ok in H as (s1 & st1 & H1 & H). revert H1. mrun. intros [= <- <-].
  apply bind_ok in H as (kc & st2 & H2 & H).
  destruct (read_identity_frame O s w (user_name s)) as [r0 Hr0].
  rewrite Hr0 in H2. injection H2 as _ <-.
  apply bind_ok in H as ([] & st3 & H3 & H).
  rewrite write_file_run in H3. destruct (open_w O w _); [|discriminate].
  injection H3 as <-.
  apply bind_ok in H as (w3 & st4 & H4 & H). revert H4. mrun. intros [= <- <-].
  apply bind_ok in H as ([] & st5 & H5 & H).
  rewrite isfile_written in H5. revert H5. cbn [negb]. mrun. intros [= <-].
  apply bind_ok in H as (r & st6 & H6 & H).
  unfold connect_run in H6. revert H6. mrun.
  destruct (ssh_run O _ _ _ _ _) as [r'|] eqn:Hrun; mrun; [|discriminate].
  intros [= <- <-]. exists r'. split; [reflexivity|].
  revert H. unfold Py.differs_from_empty_bytes. mrun.
  destruct (Py.int_of_str (stdout r')) as [q|] eqn:Hq; mrun; [|discriminate].
  intros [= <- _]. split; [reflexivity|]. intros Hempty. by rewrite Hempty in Hq.
Qed.

(** What [start] does with the process id the launch gave back. *)
Lemma start_after_launch O st r st' :
  start O st = (Ok r, st') →
  r = StartFalse
  ∨ ∃ command st1 st2 p port,
      exec_notebook O command st1 = (Ok p, st2)
      ∧ st' = (set_pid p st2.1, st2.2)
      ∧ r = if p <? 0 then StartNone else StartAt (remote_host st2.1) port.
Proof.
  unfold start. intros H.
  apply bind_ok in H as (s & st1 & _ & H).
  apply bind_ok in H as (kc & st2 & _ & H).
  apply bind_ok in H as (h & st3 & _ & H).
  apply bind_ok in H as ([] & st4 & _ & H).
  apply bind_ok in H as ([ip port] & st5 & _ & H).
  apply bind_ok in H as ([] & st6 & _ & H).
  destruct port as [port|]; [|left; by inversion H].
  destruct (port =? 0); [left; by inversion H|]. right.
  apply bind_ok in H as ([] & st7 & _ & H).
  apply bind_ok in H as (s7 & st8 & _ & H).
  apply bind_ok in H as ([] & st9 & _ & H).
  apply bind_ok in H as (s9 & st10 & _ & H).
  apply bind_ok in H as ([] & st11 & _ & H).
  apply bind_ok in H as (s11 & st12 & _ & H).
  apply bind_ok in H as (fwd & st13 & _ & H).
  apply bind_ok in H as (p & st14 & Hexec & H).
  eexists _, st13, st14, p, port. split; [exact Hexec|].
  destruct st14 as [s14 w14]. revert H. mrun. cbn [pid set_pid].
  destruct (p <? 0); intros [= <- <-]; split; reflexivity.
Qed.

(** C4, where the code parts from it.  A launch whose script printed
    nothing does not give -1: the output is a text, the test against the
    empty bytes literal holds for every text, and [int] of the empty text
    raises the parse error.  A launch that returns has parsed a non-empty
    output, so -1 comes back only when the script printed it.  What [start]
    does with a process id stands: it answers [None], not a pair of host and
    port, whenever the process id the launch gave it is negative. *)
Theorem exec_notebook_empty_output (O : Oracle) :
  (∀ command s w r,
     identity_readable O s w = true →
     open_w O w (run_script_path s) = true →
     let w1 := with_fs (<[run_script_path s := bash_script_str (exec_env O s) command]>) w in
     ssh_run O w1 (remote_host s) (user_name s) "bash -s" (Some (run_script_path s))
       = Some r →
     stdout r = "" →
     exec_notebook O command (s, w) = (Raise ValueError, (s, logged (launch_session s) w1)))
  ∧ (∀ command s w p st',
       exec_notebook O command (s, w) = (Ok p, st') →
       ∃ r,
         ssh_run O
           (with_fs (<[run_script_path s := bash_script_str (exec_env O s) command]>) w)
           (remote_host s) (user_name s) "bash -s" (Some (run_script_path s)) = Some r
         ∧ Py.int_of_str (stdout r) = Some p
         ∧ stdout r ≠ "")
  ∧ (∀ st r st',
       start O st = (Ok r, st') →
       r = StartFalse
       ∨ ∃ command st1 st2 p port,
           exec_notebook O command st1 = (Ok p, st2)
           ∧ st' = (set_pid p st2.1, st2.2)
           ∧ r = if p <? 0 then StartNone else StartAt (remote_host st2.1) port).
Proof.
  split; [|split].
  - intros command s w r Hid Hw w1 Hrun Hout.
    rewrite exec_notebook_run by done. fold w1. rewrite Hrun, Hout. reflexivity.
  - apply exec_notebook_ok_output.
  - apply start_after_launch.
Qed.

Lemma exec_notebook_empty_output_witness :
  exec_notebook (Scenario.oracle "" "" None) "run"
    (Scenario.spawner ["h1"] false false, Scenario.world)
  = (Raise ValueError,
     (Scenario.spawner ["h1"] false false,
      logged (launch_session (Scenario.spawner ["h1"] false false))
        (with_fs (<["/tmp/ann_run.sh" :=
                      bash_script_str
                        (exec_env (Scenario.oracle "" "" None)
                           (Scenario.spawner ["h1"] false false)) "run"]>)
           Scenario.world)))
  ∧ (start (Scenario.oracle "9000" "" None)
       (Scenario.spawner ["h1"] true true, Scenario.world)).1 = Raise ValueError
  ∧ (StartNone = StartFalse
     ∨ ∃ command st1 st2 p port,
         exec_notebook (Scenario.oracle "9000" "-1" None) command st1
         = (Ok p, st2)
         ∧ (start (Scenario.oracle "9000" "-1" None)
              (Scenario.spawner ["h1"] true true, Scenario.world)).2
           = (set_pid p st2.1, st2.2)
         ∧ StartNone = if p <? 0 then StartNone else StartAt (remote_host st2.1) port).
Proof.
  split; [|split].
  - apply (proj1 (exec_notebook_empty_output (Scenario.oracle "" "" None)) "run"
             (Scenario.spawner ["h1"] false false) Scenario.world
             (mkRunResult "" "" (Some 0))); reflexivity.
  - vm_compute. reflexivity.
  - apply (proj2 (proj2 (exec_notebook_empty_output (Scenario.oracle "9000" "-1" None)))
             (Scenario.spawner ["h1"] true true, Scenario.world) StartNone
             (start (Scenario.oracle "9000" "-1" None)
                (Scenario.spawner ["h1"] true true, Scenario.world)).2).
    vm_compute. reflexivity.
Defined.


(** ** The launch script *)

Lemma export_loop (env : list (string * string)) (init : string) :
  fold_left (λ acc item, acc +:+ export_line item) env init
  = init +:+ export_block env.
Proof.
  revert init. induction env as [|item env IH]; intros init;
    cbn [fold_left export_block].
  - by rewrite append_nil_r.
  - rewrite IH. apply append_assoc.
Qed.

(** The whole script: shebang, export statements, fixed tail. *)
Lemma bash_script_str_layout (env : list (string * string)) (command : string) :
  bash_script_str env command
  = "#!/bin/bash" +:+ Py.nl +:+ export_block env
    +:+ "unset XDG_RUNTIME_DIR" +:+ Py.nl
    +:+ "touch .jupyter.log" +:+ Py.nl
    +:+ "chmod 600 .jupyter.log" +:+ Py.nl
    +:+ command +:+ " < /dev/null >> .jupyter.log 2>&1 & pid=$!" +:+ Py.nl
    +:+ "echo $pid" +:+ Py.nl.
Proof.
  unfold bash_script_str. cbn zeta. rewrite export_loop.
  rewrite !append_assoc. reflexivity.
Qed.

Lemma lines_from_line (a rest cur : string) :
  has_nl a = false →
  lines_from (a +:+ Py.nl +:+ rest) cur = (cur +:+ a) :: lines_from rest "".
Proof.
  revert cur. induction a as [|x a IH]; intros cur Hnl.
  - cbn. by rewrite append_nil_r.
  - cbn in Hnl. apply orb_false_iff in Hnl as [Hx Ha].
    change (lines_from (String x (a +:+ Py.nl +:+ rest)) cur
            = (cur +:+ String x a) :: lines_from rest "").
    cbn [lines_from]. rewrite Hx. rewrite IH by done.
    by rewrite append_assoc.
Qed.

Lemma lines_export_block (env : list (string * string)) (rest : string) :
  Forall (λ item, has_nl item.1 = false ∧ has_nl item.2 = false) env →
  lines_from (export_block env +:+ rest) ""
  = (export_text <$> env) ++ lines_from rest "".
Proof.
  induction 1 as [|item env [Hk Hv] _ IH]; [reflexivity|].
  cbn [export_block fmap list_fmap app]. unfold export_line.
  rewrite !append_assoc.
  change ("export " +:+ item.1 +:+ "=" +:+ item.2 +:+ Py.nl +:+ export_block env +:+ rest)
    with ("export " +:+ (item.1 +:+ "=" +:+ item.2 +:+ Py.nl +:+ export_block env +:+ rest)).
  rewrite <- (append_assoc item.1), <- (append_assoc (item.1 +:+ "=")),
    <- (append_assoc "export ").
  rewrite lines_from_line.
  - rewrite IH. unfold export_text. by rewrite !append_assoc.
  - rewrite !has_nl_append, Hk, Hv. reflexivity.
Qed.

Lemma exec_notebook_writes O command s w :
  identity_readable O s w = true →
  open_w O w (run_script_path s) = true →
  w_fs (exec_notebook O command (s, w)).2.2 !! run_script_path s
  = Some (bash_script_str (exec_env O s) command).
Proof.
  intros Hid Hw. rewrite exec_notebook_run by done. cbn zeta.
  destruct (ssh_run O _ _ _ _ _) as [r|]; [|apply lookup_insert_eq].
  destruct (Py.int_of_str _); apply lookup_insert_eq.
Qed.

(** C8. The script that [exec_notebook] writes is one function of the
    command and the environment mapping, at a path made from the user name:
    two launches that agree on these write the same bytes to the same file,
    whatever else differs.  Its text is the shebang line, then the export
    statements, then the fixed tail; read line by line, the lines after the
    shebang are [export KEY=VALUE], one per entry, in the order of the
    mapping. *)
Theorem bash_script_str_spec :
  (∀ O1 O2 s1 s2 w1 w2 command,
     user_name s1 = user_name s2 →
     exec_env O1 s1 = exec_env O2 s2 →
     identity_readable O1 s1 w1 = true →
     identity_readable O2 s2 w2 = true →
     open_w O1 w1 (run_script_path s1) = true →
     open_w O2 w2 (run_script_path s2) = true →
     run_script_path s1 = run_script_path s2
     ∧ w_fs (exec_notebook O1 command (s1, w1)).2.2 !! run_script_path s1
       = Some (bash_script_str (exec_env O1 s1) command)
     ∧ w_fs (exec_notebook O2 command (s2, w2)).2.2 !! run_script_path s2
       = w_fs (exec_notebook O1 command (s1, w1)).2.2 !! run_script_path s1)
  ∧ (∀ env command,
       bash_script_str env command
       = "#!/bin/bash" +:+ Py.nl +:+ export_block env
         +:+ "unset XDG_RUNTIME_DIR" +:+ Py.nl
         +:+ "touch .jupyter.log" +:+ Py.nl
         +:+ "chmod 600 .jupyter.log" +:+ Py.nl
         +:+ command +:+ " < /dev/null >> .jupyter.log 2>&1 & pid=$!" +:+ Py.nl
         +:+ "echo $pid" +:+ Py.nl)
  ∧ (∀ env command,
       Forall (λ item, has_nl item.1 = false ∧ has_nl item.2 = false) env →
       take (S (length env)) (lines (bash_script_str env command))
       = "#!/bin/bash" :: (export_text <$> env)).
Proof.
  split; [|split].
  - intros O1 O2 s1 s2 w1 w2 command Hu He Hi1 Hi2 Ho1 Ho2.
    split; [unfold run_script_path; by rewrite Hu|].
    rewrite !exec_notebook_writes by done. by rewrite He.
  - apply bash_script_str_layout.
  - intros env command Henv. rewrite bash_script_str_layout. unfold lines.
    rewrite (lines_from_line "#!/bin/bash") by reflexivity.
    rewrite lines_export_block by done.
    cbn [take String.append]. f_equal.
    rewrite take_app_length'; [reflexivity|]. by rewrite length_fmap.
Qed.

Lemma bash_script_str_spec_witness :
  (run_script_path (Scenario.spawner ["h1"] false false)
   = run_script_path (set_pid 7 (Scenario.spawner ["h2"] true true))
   ∧ w_fs (exec_notebook (Scenario.oracle "" "" None) "run"
             (Scenario.spawner ["h1"] false false, Scenario.world)).2.2
       !! run_script_path (Scenario.spawner ["h1"] false false)
     = Some (bash_script_str
               (exec_env (Scenario.oracle "" "" None)
                  (Scenario.spawner ["h1"] false false)) "run")
   ∧ w_fs (exec_notebook (Scenario.oracle "1" "2" (Some 3)) "run"
             (set_pid 7 (Scenario.spawner ["h2"] true true),
              logged (EvSubprocess []) Scenario.world)).2.2
       !! run_script_path (set_pid 7 (Scenario.spawner ["h2"] true true))
     = w_fs (exec_notebook (Scenario.oracle "" "" None) "run"
               (Scenario.spawner ["h1"] false false, Scenario.world)).2.2
         !! run_script_path (Scenario.spawner ["h1"] false false))
  ∧ take 3 (lines (bash_script_str [("LANG", "C"); ("PATH", "/bin")] "run"))
    = ["#!/bin/bash"; "export LANG=C"; "export PATH=/bin"].
Proof.
  split.
  - apply (proj1 bash_script_str_spec
             (Scenario.oracle "" "" None)
             (Scenario.oracle "1" "2" (Some 3))
             (Scenario.spawner ["h1"] false false)
             (set_pid 7 (Scenario.spawner ["h2"] true true))
             Scenario.world (logged (EvSubprocess []) Scenario.world) "run");
      reflexivity.
  - apply (proj2 (proj2 bash_script_str_spec) [("LANG", "C"); ("PATH", "/bin")] "run").
    repeat constructor.
Defined.

(** ** Staging *)

Lemma dict_get_run (d : loc) (k v : string) (m : gmap string string) s w :
  w_heap w !! d = Some m → m !! k = Some v →
  dict_get d k (s, w) = (Ok v, (s, w)).
Proof. intros Hd Hk. unfold dict_get. mrun. rewrite Hd. mrun. rewrite Hk. reflexivity. Qed.

Lemma dict_set_run (d : loc) (k v : string) (m : gmap string string) s w :
  w_heap w !! d = Some m →
  dict_set d k v (s, w) = (Ok (), (s, with_heap (<[d := <[k := v]> m]>) w)).
Proof. intros Hd. unfold dict_set. mrun. rewrite Hd. reflexivity. Qed.

Lemma dict_new_run (m : gmap string string) s w :
  dict_new m (s, w)
  = (Ok (fresh (dom (w_heap w))), (s, with_heap (<[fresh (dom (w_heap w)) := m]>) w)).
Proof. reflexivity. Qed.

(** Copying and moving files leave the spawner, the dicts, the directories
    and the log alone. *)
Lemma shutil_copy_frame O src dst s heap fs dirs tr :
  ∃ r fs', shutil_copy O src dst (s, mkWorld heap fs dirs tr)
           = (r, (s, mkWorld heap fs' dirs tr)).
Proof.
  unfold shutil_copy. mrun.
  destruct (String.eqb src _); mrun; [eauto|].
  destruct (fs !! src); mrun; [|eauto].
  rewrite write_file_run. destruct (open_w O _ _); eauto.
Qed.

Lemma shutil_move_frame O src dst s heap fs dirs tr :
  ∃ r fs', shutil_move O src dst (s, mkWorld heap fs dirs tr)
           = (r, (s, mkWorld heap fs' dirs tr)).
Proof.
  unfold shutil_move. mrun.
  destruct (_ && _); mrun; [eauto|].
  destruct (fs !! src); mrun; [|eauto].
  destruct (open_w O _ _); mrun; eauto.
Qed.

Lemma fresh_loc_ne (heap : gmap loc (gmap string string)) (d : loc) :
  is_Some (heap !! d) → fresh (dom heap) ≠ d.
Proof.
  intros Hd Heq. apply (is_fresh (dom heap)). rewrite Heq. by apply elem_of_dom.
Qed.

Lemma stage_ssh_keys_effect O s w paths dest (m : gmap string string) a b :
  w_heap w !! paths = Some m →
  m !! "private_key_file" = Some a →
  m !! "public_key_file" = Some b →
  let m' := <["public_key_file" := expanduser O b]>
              (<["private_key_file" := expanduser O a]> m) in
  let res := stage_ssh_keys O paths dest (s, w) in
  w_heap res.2.2 !! paths = Some m'
  ∧ res.2.1 = s
  ∧ (∀ d, res.1 = Ok d →
       d ≠ paths
       ∧ w_heap res.2.2 !! d
         = Some (<["private_key_path" :=
                     Py.path_join (ssh_forward_tunnel_client_path s)
                       (Py.basename (expanduser O a))]>
                   (<["public_key_path" :=
                        Py.path_join (ssh_forward_tunnel_client_path s)
                          (Py.basename (expanduser O b))]> ∅))).
Proof.
  destruct w as [heap fs dirs tr]. intros Hm Ha Hb m' res. cbn [w_heap] in Hm.
  set (m1 := <["private_key_file" := expanduser O a]> m).
  set (heap' := <[paths := m']> (<[paths := m1]> heap)).
  assert (Hm' : heap' !! paths = Some m') by apply lookup_insert_eq.
  assert (Ha' : m' !! "private_key_file" = Some (expanduser O a)).
  { unfold m'. rewrite lookup_insert_ne by done. apply lookup_insert_eq. }
  assert (Hb' : m' !! "public_key_file" = Some (expanduser O b))
    by apply lookup_insert_eq.
  assert (Hstart : ∀ fs', w_heap (mkWorld heap' fs' dirs tr) !! paths = Some m') by done.
  subst res. unfold stage_ssh_keys. mrun.
  rewrite (dict_get_run paths _ a m) by done. mrun.
  rewrite (dict_set_run paths _ _ m) by done. mrun. fold m1.
  rewrite (dict_get_run paths _ b m1);
    [|apply lookup_insert_eq|by unfold m1; rewrite lookup_insert_ne]. mrun.
  rewrite (dict_set_run paths _ _ m1) by apply lookup_insert_eq. mrun.
  fold m'.
  rewrite (dict_get_run paths _ _ m') by done. mrun.
  unfold with_heap. cbn [w_heap w_fs w_dirs w_trace].
  change (<[paths := _]> (<[paths := m1]> heap)) with heap'.
  destruct (shutil_copy_frame O (expanduser O a) dest s heap' fs dirs tr)
    as (r1 & fs1 & ->).
  destruct r1 as [[]|e]; mrun; [|done].
  rewrite (dict_get_run paths _ _ m') by done. mrun.
  destruct (shutil_copy_frame O (expanduser O b) dest s heap' fs1 dirs tr)
    as (r2 & fs2 & ->).
  destruct r2 as [[]|e]; mrun; [|done].
  do 2 (rewrite (dict_get_run paths _ _ m') by done; mrun).
  rewrite dict_new_run. mrun.
  assert (Hne : fresh (dom heap') ≠ paths) by (apply fresh_loc_ne; eauto).
  split; [by rewrite lookup_insert_ne|]. split; [done|].
  intros d [= <-]. split; [done|]. apply lookup_insert_eq.
Qed.

Lemma stage_certs_effect O s w paths dest (m : gmap string string) a b c :
  w_heap w !! paths = Some m →
  m !! "keyfile" = Some a →
  m !! "certfile" = Some b →
  m !! "cafile" = Some c →
  let m' := <["cafile" := expanduser O c]>
              (<["certfile" := expanduser O b]>
                 (<["keyfile" := expanduser O a]> m)) in
  let res := stage_certs O paths dest (s, w) in
  w_heap res.2.2 !! paths = Some m'
  ∧ res.2.1 = s
  ∧ (∀ d, res.1 = Ok d →
       d ≠ paths
       ∧ w_heap res.2.2 !! d
         = Some (<["keyfile" :=
                     Py.path_join (resource_path s) (Py.basename (expanduser O a))]>
                   (<["certfile" :=
                        Py.path_join (resource_path s) (Py.basename (expanduser O b))]>
                      (<["cafile" :=
                           Py.path_join (resource_path s)
                             (Py.basename (expanduser O c))]> ∅)))).
Proof.
  destruct w as [heap fs dirs tr]. intros Hm Ha Hb Hc m' res. cbn [w_heap] in Hm.
  set (m1 := <["keyfile" := expanduser O a]> m).
  set (m2 := <["certfile" := expanduser O b]> m1).
  set (heap' := <[paths := m']> (<[paths := m2]> (<[paths := m1]> heap))).
  assert (Hm' : heap' !! paths = Some m') by apply lookup_insert_eq.
  assert (Ha' : m' !! "keyfile" = Some (expanduser O a)).
  { unfold m'. rewrite !lookup_insert_ne by done. apply lookup_insert_eq. }
  assert (Hb' : m' !! "certfile" = Some (expanduser O b)).
  { unfold m'. rewrite lookup_insert_ne by done. apply lookup_insert_eq. }
  assert (Hc' : m' !! "cafile" = Some (expanduser O c)) by apply lookup_insert_eq.
  assert (Hstart : ∀ fs', w_heap (mkWorld heap' fs' dirs tr) !! paths = Some m') by done.
  subst res. unfold stage_certs. mrun.
  rewrite (dict_get_run paths _ a m) by done. mrun.
  rewrite (dict_set_run paths _ _ m) by done. mrun. fold m1.
  rewrite (dict_get_run paths _ b m1);
    [|apply lookup_insert_eq|by unfold m1; rewrite lookup_insert_ne]. mrun.
  rewrite (dict_set_run paths _ _ m1) by apply lookup_insert_eq. mrun. fold m2.
  rewrite (dict_get_run paths _ c m2);
    [|apply lookup_insert_eq|by unfold m2, m1; rewrite !lookup_insert_ne]. mrun.
  rewrite (dict_set_run paths _ _ m2) by apply lookup_insert_eq. mrun.
  rewrite (dict_get_run paths _ (expanduser O a) m');
    [|apply lookup_insert_eq|done]. mrun.
  unfold with_heap. cbn [w_heap w_fs w_dirs w_trace].
  change (<[paths := _]> (<[paths := m2]> (<[paths := m1]> heap))) with heap'.
  destruct (shutil_move_frame O (expanduser O a) dest s heap' fs dirs tr)
    as (r1 & fs1 & ->).
  destruct r1 as [[]|e]; mrun; [|done].
  rewrite (dict_get_run paths _ _ m') by done. mrun.
  destruct (shutil_move_frame O (expanduser O b) dest s heap' fs1 dirs tr)
    as (r2 & fs2 & ->).
  destruct r2 as [[]|e]; mrun; [|done].
  rewrite (dict_get_run paths _ _ m') by done. mrun.
  destruct (shutil_copy_frame O (expanduser O c) dest s heap' fs2 dirs tr)
    as (r3 & fs3 & ->).
  destruct r3 as [[]|e]; mrun; [|done].
  do 3 (rewrite (dict_get_run paths _ _ m') by done; mrun).
  rewrite dict_new_run. mrun.
  assert (Hne : fresh (dom heap') ≠ paths) by (apply fresh_loc_ne; eauto).
  split; [by rewrite lookup_insert_ne|]. split; [done|].
  intros d [= <-]. split; [done|]. apply lookup_insert_eq.
Qed.

(** C10. Both staging functions update the dict they are handed, in place:
    [stage_certs] replaces its [keyfile], [certfile] and [cafile] entries,
    [stage_ssh_keys] its [private_key_file] and [public_key_file] entries,
    by their home-expanded forms; every other entry keeps its value; and the
    dict they return is a new one holding the remote destination paths. *)
Theorem staging_updates_caller_dict (O : Oracle) (s : Spawner) (w : World)
    (paths : loc) (dest : string) (m : gmap string string) :
  w_heap w !! paths = Some m →
  (∀ a b c,
     m !! "keyfile" = Some a →
     m !! "certfile" = Some b →
     m !! "cafile" = Some c →
     let res := stage_certs O paths dest (s, w) in
     ∃ m',
       w_heap res.2.2 !! paths = Some m'
       ∧ m' !! "keyfile" = Some (expanduser O a)
       ∧ m' !! "certfile" = Some (expanduser O b)
       ∧ m' !! "cafile" = Some (expanduser O c)
       ∧ (∀ k, k ≠ "keyfile" → k ≠ "certfile" → k ≠ "cafile" → m' !! k = m !! k)
       ∧ (∀ d, res.1 = Ok d →
            d ≠ paths
            ∧ w_heap res.2.2 !! d
              = Some (<["keyfile" :=
                          Py.path_join (resource_path s) (Py.basename (expanduser O a))]>
                        (<["certfile" :=
                             Py.path_join (resource_path s)
                               (Py.basename (expanduser O b))]>
                           (<["cafile" :=
                                Py.path_join (resource_path s)
                                  (Py.basename (expanduser O c))]> ∅)))))
  ∧ (∀ a b,
       m !! "private_key_file" = Some a →
       m !! "public_key_file" = Some b →
       let res := stage_ssh_keys O paths dest (s, w) in
       ∃ m',
         w_heap res.2.2 !! paths = Some m'
         ∧ m' !! "private_key_file" = Some (expanduser O a)
         ∧ m' !! "public_key_file" = Some (expanduser O b)
         ∧ (∀ k, k ≠ "private_key_file" → k ≠ "public_key_file" → m' !! k = m !! k)
         ∧ (∀ d, res.1 = Ok d →
              d ≠ paths
              ∧ w_heap res.2.2 !! d
                = Some (<["private_key_path" :=
                            Py.path_join (ssh_forward_tunnel_client_path s)
                              (Py.basename (expanduser O a))]>
                          (<["public_key_path" :=
                               Py.path_join (ssh_forward_tunnel_client_path s)
                                 (Py.basename (expanduser O b))]> ∅)))).
Proof.
  intros Hm. split.
  - intros a b c Ha Hb Hc res.
    destruct (stage_certs_effect O s w paths dest m a b c Hm Ha Hb Hc)
      as (Hheap & _ & Hret).
    eexists. split; [exact Hheap|]. repeat split.
    + rewrite !lookup_insert_ne by done. apply lookup_insert_eq.
    + rewrite lookup_insert_ne by done. apply lookup_insert_eq.
    + apply lookup_insert_eq.
    + intros k H1 H2 H3. by rewrite !lookup_insert_ne.
    + by apply Hret.
    + by apply Hret.
  - intros a b Ha Hb res.
    destruct (stage_ssh_keys_effect O s w paths dest m a b Hm Ha Hb)
      as (Hheap & _ & Hret).
    eexists. split; [exact Hheap|]. repeat split.
    + rewrite lookup_insert_ne by done. apply lookup_insert_eq.
    + apply lookup_insert_eq.
    + intros k H1 H2. by rewrite !lookup_insert_ne.
    + by apply Hret.
    + by apply Hret.
Qed.

Lemma staging_updates_caller_dict_witness :
  (∃ m',
     w_heap (stage_certs (Scenario.oracle "" "" None) 0%nat "/stage"
               (Scenario.spawner ["h1"] true true, Scenario.world)).2.2 !! 0%nat
     = Some m'
     ∧ m' !! "keyfile" = Some "/home/hub/ssl/ann.key"
     ∧ m' !! "certfile" = Some "/home/hub/ssl/ann.crt"
     ∧ m' !! "cafile" = Some "/home/hub/ssl/ca.crt"
     ∧ (∀ k, k ≠ "keyfile" → k ≠ "certfile" → k ≠ "cafile" →
          m' !! k = Scenario.tls_paths !! k)
     ∧ (∀ d,
          (stage_certs (Scenario.oracle "" "" None) 0%nat "/stage"
             (Scenario.spawner ["h1"] true true, Scenario.world)).1 = Ok d →
          d ≠ 0%nat
          ∧ w_heap (stage_certs (Scenario.oracle "" "" None) 0%nat "/stage"
                      (Scenario.spawner ["h1"] true true, Scenario.world)).2.2 !! d
            = Some (<["keyfile" := ".jupyterhub-resources/ann.key"]>
                      (<["certfile" := ".jupyterhub-resources/ann.crt"]>
                         (<["cafile" := ".jupyterhub-resources/ca.crt"]> ∅)))))
  ∧ (∃ m',
       w_heap (stage_ssh_keys (Scenario.oracle "" "" None) 1%nat "/stage"
                 (Scenario.spawner ["h1"] true true, Scenario.world)).2.2 !! 1%nat
       = Some m'
       ∧ m' !! "private_key_file" = Some "/home/hub/keys/fw"
       ∧ m' !! "public_key_file" = Some "/home/hub/keys/fw.pub"
       ∧ (∀ k, k ≠ "private_key_file" → k ≠ "public_key_file" →
            m' !! k = Scenario.tunnel_paths !! k)
       ∧ (∀ d,
            (stage_ssh_keys (Scenario.oracle "" "" None) 1%nat "/stage"
               (Scenario.spawner ["h1"] true true, Scenario.world)).1 = Ok d →
            d ≠ 1%nat
            ∧ w_heap (stage_ssh_keys (Scenario.oracle "" "" None) 1%nat "/stage"
                        (Scenario.spawner ["h1"] true true, Scenario.world)).2.2 !! d
              = Some (<["private_key_path" := "~/.ssh/fw"]>
                        (<["public_key_path" := "~/.ssh/fw.pub"]> ∅))))
  ∧ (stage_certs (Scenario.oracle "" "" None) 0%nat "/stage"
       (Scenario.spawner ["h1"] true true, Scenario.world)).1 = Ok 2%nat
  ∧ (stage_ssh_keys (Scenario.oracle "" "" None) 1%nat "/stage"
       (Scenario.spawner ["h1"] true true, Scenario.world)).1 = Ok 2%nat.
Proof.
  split; [|split; [|split]].
  - apply (proj1 (staging_updates_caller_dict (Scenario.oracle "" "" None)
             (Scenario.spawner ["h1"] true true) Scenario.world 0%nat "/stage"
             Scenario.tls_paths eq_refl)
             "~/ssl/ann.key" "~/ssl/ann.crt" "~/ssl/ca.crt"); reflexivity.
  - apply (proj2 (staging_updates_caller_dict (Scenario.oracle "" "" None)
             (Scenario.spawner ["h1"] true true) Scenario.world 1%nat "/stage"
             Scenario.tunnel_paths eq_refl)
             "~/keys/fw" "~/keys/fw.pub"); reflexivity.
  - vm_compute. reflexivity.
  - vm_compute. reflexivity.
Defined.

(** ** The scenarios of the specification, run on the model *)

(** A pool of two hosts, the first one drawn, port 9000 negotiated, pid 1234
    launched: [start] answers the pair, and the dump holds pid and host. *)
Example scenario_start_ok :
  let O := Scenario.oracle ("9000" +:+ Py.nl) ("1234" +:+ Py.nl) None in
  let run := start O (Scenario.spawner ["h1"; "h2"] true true, Scenario.world) in
  run.1 = Ok (StartAt "h1" 9000)
  ∧ (get_state O run.2).1
    = Ok (<["pid" := VInt 1234]> (<["remote_host" := VStr "h1"]> ∅)).
Proof. split; vm_compute; reflexivity. Qed.

(** After [stop] the dump still names the sentinel host. *)
Example scenario_stop_then_dump :
  let O := Scenario.oracle "" "" (Some 1) in
  let run := stop O (set_remote_host "h1" (set_pid 1234 (Scenario.spawner ["h1"] false false)),
                     Scenario.world) in
  run.1 = Ok ()
  ∧ (get_state O run.2).1 = Ok (<["remote_host" := VStr "remote_host"]> ∅).
Proof. split; vm_compute; reflexivity. Qed.

(** * Further properties *)

(** ** Frames of the building blocks *)

Lemma read_identity_fails O s w :
  identity_readable O s w = false →
  ∃ e, read_identity O (user_name s) (s, w) = (Raise e, (s, w)).
Proof.
  unfold identity_readable, read_identity. intros H. mrun.
  destruct (format_username O (ssh_keyfile s) (user_name s)) as [kf|]; mrun; [|eauto].
  destruct (read_private_key O w kf) as [k|] eqn:Hk; mrun; [|eauto].
  destruct (read_certificate O w (kf +:+ "-cert.pub")) as [c|] eqn:Hc; mrun; [|eauto].
  rewrite !bool_decide_eq_true_2 in H by eauto. discriminate.
Qed.

Lemma stop_run O s w :
  identity_readable O s w = true →
  stop O (s, w) =
    match ssh_run O w (remote_host s) (user_name s) (signal_command 15 (pid s)) None with
    | Some _ => (Ok (), (cleared s, logged (signal_session 15 s) w))
    | None => (Raise ConnectionError, (s, logged (signal_session 15 s) w))
    end.
Proof.
  intros Hid. unfold stop. mrun. rewrite remote_signal_run by done.
  destruct (ssh_run O w _ _ _ _); [|reflexivity].
  rewrite clear_state_run. reflexivity.
Qed.

Lemma poll_run O s w :
  pid s ≠ 0 →
  identity_readable O s w = true →
  poll O (s, w) =
    match ssh_run O w (remote_host s) (user_name s) (signal_command 0 (pid s)) None with
    | Some r =>
        if bool_decide (exit_status r = Some 0)
        then (Ok None, (s, logged (signal_session 0 s) w))
        else (Ok (Some 0), (cleared s, logged (signal_session 0 s) w))
    | None => (Raise ConnectionError, (s, logged (signal_session 0 s) w))
    end.
Proof.
  intros Hpid Hid. unfold poll. mrun.
  unfold Py.truthy_int. destruct (Z.eqb_spec (pid s) 0) as [|_]; [done|].
  cbn [negb]. mrun. rewrite remote_signal_run by done.
  destruct (ssh_run O w _ _ _ _) as [r|]; [|reflexivity].
  destruct (bool_decide (exit_status r = Some 0)); cbn [negb]; mrun;
    [reflexivity|]. rewrite clear_state_run. reflexivity.
Qed.

(** ** Dumping and restoring *)

Lemma get_state_lookup_pid O s w state :
  super_get_state O !! "pid" = None →
  get_state O (s, w) = (Ok state, (s, w)) →
  state !! "pid" = if bool_decide (pid s = 0) then None else Some (VInt (pid s)).
Proof.
  intros Hb. rewrite get_state_run. intros [= <-]. cbn zeta.
  assert (H : (if Py.truthy_int (pid s)
               then <["pid" := VInt (pid s)]> (super_get_state O)
               else super_get_state O) !! "pid"
              = if bool_decide (pid s = 0) then None else Some (VInt (pid s))).
  { destruct (decide (pid s = 0)) as [Hz|Hz].
    - rewrite bool_decide_eq_true_2, Hz by done. exact Hb.
    - rewrite bool_decide_eq_false_2 by done.
      apply truthy_int_true in Hz. rewrite Hz. apply lookup_insert_eq. }
  destruct (Py.truthy_str (remote_host s)); [|exact H].
  by rewrite lookup_insert_ne.
Qed.

Lemma get_state_lookup_host O s w state :
  remote_host s ≠ "" →
  get_state O (s, w) = (Ok state, (s, w)) →
  state !! "remote_host" = Some (VStr (remote_host s)).
Proof.
  intros Hh. rewrite get_state_run. intros [= <-]. cbn zeta.
  apply truthy_str_true in Hh. rewrite Hh. apply lookup_insert_eq.
Qed.

(** X1. What [get_state] dumps, [load_state] restores: loading the dump of a
    spawner with a non-empty host into a spawner whose pid is 0 (a new one,
    or a cleared one) gives that spawner the dumped pid and host, without
    raising and without touching the world. *)
Theorem dump_restore_roundtrip (O : Oracle) (s t : Spawner) (w w' : World)
    (state : gmap string PyVal) :
  super_get_state O !! "pid" = None →
  remote_host s ≠ "" →
  pid t = 0 →
  get_state O (s, w) = (Ok state, (s, w)) →
  ∃ t',
    load_state state (t, w') = (Ok (), (t', w'))
    ∧ pid t' = pid s
    ∧ remote_host t' = remote_host s.
Proof.
  intros Hb Hh Ht Hget. rewrite load_state_run.
  rewrite (get_state_lookup_pid O s w state Hb Hget).
  rewrite (get_state_lookup_host O s w state Hh Hget).
  destruct (decide (pid s = 0)) as [Hz|Hz].
  - rewrite bool_decide_eq_true_2 by done. eexists. split; [reflexivity|].
    split; [cbn; congruence|reflexivity].
  - rewrite bool_decide_eq_false_2 by done. eexists. split; [reflexivity|].
    split; reflexivity.
Qed.

Lemma dump_restore_roundtrip_witness :
  ∃ t',
    load_state (<["pid" := VInt 1234]> (<["remote_host" := VStr "h1"]> ∅))
      (Scenario.spawner ["h1"] false false, Scenario.world)
    = (Ok (), (t', Scenario.world))
    ∧ pid t' = 1234
    ∧ remote_host t' = "h1".
Proof.
  apply (dump_restore_roundtrip (Scenario.oracle "" "" None)
           (set_remote_host "h1" (set_pid 1234 (Scenario.spawner ["h1"] false false)))
           (Scenario.spawner ["h1"] false false) Scenario.world Scenario.world
           (<["pid" := VInt 1234]> (<["remote_host" := VStr "h1"]> ∅))).
  - reflexivity.
  - discriminate.
  - reflexivity.
  - reflexivity.
Defined.

(** ** Polling and stopping *)

(** X2. After a [stop] whose kill command came back, [poll] answers exit
    code 0 at once: it opens no session and leaves the cleared state as it
    is. *)
Theorem poll_after_stop (O : Oracle) (s : Spawner) (w : World) (r : RunResult) :
  identity_readable O s w = true →
  ssh_run O w (remote_host s) (user_name s) (signal_command 15 (pid s)) None = Some r →
  (stop O (s, w)).1 = Ok ()
  ∧ poll O (stop O (s, w)).2 = (Ok (Some 0), (stop O (s, w)).2)
  ∧ w_trace (stop O (s, w)).2.2 = w_trace w ++ [signal_session 15 s].
Proof.
  intros Hid Hrun. rewrite stop_run, Hrun by done. cbn [fst snd].
  split; [reflexivity|]. split; [|reflexivity].
  rewrite poll_no_pid by reflexivity. reflexivity.
Qed.

Lemma poll_after_stop_witness :
  (stop (Scenario.oracle "" "" (Some 1))
     (set_pid 1234 (Scenario.spawner ["h1"] false false), Scenario.world)).1 = Ok ()
  ∧ poll (Scenario.oracle "" "" (Some 1))
      (stop (Scenario.oracle "" "" (Some 1))
         (set_pid 1234 (Scenario.spawner ["h1"] false false), Scenario.world)).2
    = (Ok (Some 0),
       (stop (Scenario.oracle "" "" (Some 1))
          (set_pid 1234 (Scenario.spawner ["h1"] false false), Scenario.world)).2)
  ∧ w_trace (stop (Scenario.oracle "" "" (Some 1))
               (set_pid 1234 (Scenario.spawner ["h1"] false false), Scenario.world)).2.2
    = w_trace Scenario.world
      ++ [signal_session 15 (set_pid 1234 (Scenario.spawner ["h1"] false false))].
Proof.
  apply (poll_after_stop (Scenario.oracle "" "" (Some 1))
           (set_pid 1234 (Scenario.spawner ["h1"] false false)) Scenario.world
           (mkRunResult "" "" (Some 1))).
  - reflexivity.
  - reflexivity.
Defined.

(** X3. [poll] never reports an exit code other than 0.  When it returns, it
    says either "still running", with the spawner as it was and a pid other
    than 0, or exit code 0, with the state cleared. *)
Theorem poll_answers (O : Oracle) (st st' : St) (a : option Z) :
  poll O st = (Ok a, st') →
  (a = None ∧ st'.1 = st.1 ∧ pid st.1 ≠ 0)
  ∨ (a = Some 0 ∧ st'.1 = cleared st.1).
Proof.
  destruct st as [s w]. destruct (decide (pid s = 0)) as [Hz|Hz].
  - rewrite poll_no_pid by done. intros [= <- <-]. right. done.
  - destruct (identity_readable O s w) eqn:Hid.
    + rewrite poll_run by done.
      destruct (ssh_run O w _ _ _ _) as [r|]; [|discriminate].
      destruct (bool_decide (exit_status r = Some 0)); intros [= <- <-].
      * left. done.
      * right. done.
    + destruct (read_identity_fails O s w Hid) as [e He].
      unfold poll. mrun. apply truthy_int_true in Hz. rewrite Hz. cbn [negb].
      unfold remote_signal, get_remote_user. mrun. rewrite He. discriminate.
Qed.

Lemma poll_answers_witness :
  let st := (set_pid 1234 (Scenario.spawner ["h1"] false false), Scenario.world) in
  let st' := (poll (Scenario.oracle "" "" (Some 0)) st).2 in
  (@None Z = None ∧ st'.1 = st.1 ∧ pid st.1 ≠ 0)
  ∨ (@None Z = Some 0 ∧ st'.1 = cleared st.1).
Proof.
  apply (poll_answers (Scenario.oracle "" "" (Some 0))
           (set_pid 1234 (Scenario.spawner ["h1"] false false), Scenario.world)).
  reflexivity.
Defined.

(** X4. When the session for the signal cannot be had, [poll] (with a pid)
    and [stop] raise the connection error and leave pid and host as they
    were: the state is not cleared. *)
Theorem signal_connection_failure (O : Oracle) (s : Spawner) (w : World) :
  identity_readable O s w = true →
  (pid s ≠ 0 →
   ssh_run O w (remote_host s) (user_name s) (signal_command 0 (pid s)) None = None →
   poll O (s, w) = (Raise ConnectionError, (s, logged (signal_session 0 s) w)))
  ∧ (ssh_run O w (remote_host s) (user_name s) (signal_command 15 (pid s)) None = None →
     stop O (s, w) = (Raise ConnectionError, (s, logged (signal_session 15 s) w))).
Proof.
  intros Hid. split.
  - intros Hpid Hrun. rewrite poll_run, Hrun by done. reflexivity.
  - intros Hrun. rewrite stop_run, Hrun by done. reflexivity.
Qed.

Lemma signal_connection_failure_witness :
  stop (Scenario.faulty false true true true true "" "")
       (set_pid 1234 (Scenario.spawner ["h1"] false false), Scenario.world)
  = (Raise ConnectionError,
     (set_pid 1234 (Scenario.spawner ["h1"] false false),
      logged (signal_session 15 (set_pid 1234 (Scenario.spawner ["h1"] false false)))
        Scenario.world)).
Proof.
  apply (proj2 (signal_connection_failure
           (Scenario.faulty false true true true true "" "")
           (set_pid 1234 (Scenario.spawner ["h1"] false false)) Scenario.world eq_refl)).
  reflexivity.
Defined.

(** ** Credentials that cannot be read *)

(** X5. When the key file name cannot be built or the key or certificate
    cannot be read, every remote operation raises that error at once: no
    session is opened, no file is written, and the spawner is unchanged. *)
Theorem unreadable_identity_stops_everything (O : Oracle) (s : Spawner) (w : World) :
  identity_readable O s w = false →
  ∃ e,
    (∀ sig, remote_signal O sig (s, w) = (Raise e, (s, w)))
    ∧ (pid s ≠ 0 → poll O (s, w) = (Raise e, (s, w)))
    ∧ stop O (s, w) = (Raise e, (s, w))
    ∧ remote_random_port O (s, w) = (Raise e, (s, w))
    ∧ (∀ command, exec_notebook O command (s, w) = (Raise e, (s, w)))
    ∧ start_ssh_remote_forward_session O (s, w) = (Raise e, (s, w))
    ∧ start O (s, w) = (Raise e, (s, w)).
Proof.
  intros Hid. destruct (read_identity_fails O s w Hid) as [e He]. exists e.
  assert (Hsig : ∀ sig, remote_signal O sig (s, w) = (Raise e, (s, w))).
  { intros sig. unfold remote_signal, get_remote_user. mrun. by rewrite He. }
  split; [exact Hsig|]. repeat split.
  - intros Hz. unfold poll. mrun. apply truthy_int_true in Hz. rewrite Hz.
    cbn [negb]. mrun. by rewrite Hsig.
  - unfold stop. mrun. by rewrite Hsig.
  - unfold remote_random_port, get_remote_user. mrun. by rewrite He.
  - intros command. unfold exec_notebook, get_remote_user. mrun. by rewrite He.
  - unfold start_ssh_remote_forward_session. mrun. by rewrite He.
  - unfold start. mrun. by rewrite He.
Qed.

Lemma unreadable_identity_stops_everything_witness :
  ∃ e,
    (∀ sig, remote_signal (Scenario.faulty true false true true true "" "") sig
              (Scenario.spawner ["h1"] false false, Scenario.world)
            = (Raise e, (Scenario.spawner ["h1"] false false, Scenario.world)))
    ∧ (pid (Scenario.spawner ["h1"] false false) ≠ 0 →
       poll (Scenario.faulty true false true true true "" "")
         (Scenario.spawner ["h1"] false false, Scenario.world)
       = (Raise e, (Scenario.spawner ["h1"] false false, Scenario.world)))
    ∧ stop (Scenario.faulty true false true true true "" "")
        (Scenario.spawner ["h1"] false false, Scenario.world)
      = (Raise e, (Scenario.spawner ["h1"] false false, Scenario.world))
    ∧ remote_random_port (Scenario.faulty true false true true true "" "")
        (Scenario.spawner ["h1"] false false, Scenario.world)
      = (Raise e, (Scenario.spawner ["h1"] false false, Scenario.world))
    ∧ (∀ command,
         exec_notebook (Scenario.faulty true false true true true "" "") command
           (Scenario.spawner ["h1"] false false, Scenario.world)
         = (Raise e, (Scenario.spawner ["h1"] false false, Scenario.world)))
    ∧ start_ssh_remote_forward_session (Scenario.faulty true false true true true "" "")
        (Scenario.spawner ["h1"] false false, Scenario.world)
      = (Raise e, (Scenario.spawner ["h1"] false false, Scenario.world))
    ∧ start (Scenario.faulty true false true true true "" "")
        (Scenario.spawner ["h1"] false false, Scenario.world)
      = (Raise e, (Scenario.spawner ["h1"] false false, Scenario.world)).
Proof.
  apply (unreadable_identity_stops_everything
           (Scenario.faulty true false true true true "" "")
           (Scenario.spawner ["h1"] false false) Scenario.world).
  reflexivity.
Defined.

(** ** Port negotiation and launch, further *)

(** X6. The host that port negotiation returns is the spawner's current
    host: a negotiation that returns has opened one session and changed
    nothing in the spawner, so the second assignment of [remote_host] in
    [start] writes back the host that was chosen. *)
Theorem remote_random_port_echoes_host (O : Oracle) (s : Spawner) (w : World)
    (ip : string) (port : option Z) (st' : St) :
  remote_random_port O (s, w) = (Ok (ip, port), st') →
  ip = remote_host s
  ∧ st' = (s, logged (EvSsh (remote_host s) (user_name s) (remote_port_command s) None) w).
Proof.
  destruct (identity_readable O s w) eqn:Hid.
  - rewrite remote_random_port_run by done. cbn zeta.
    destruct (ssh_run O w _ _ _ _) as [r|]; [|discriminate].
    destruct (Py.int_of_str _); [by intros [= <- <- <-]|discriminate].
  - destruct (read_identity_fails O s w Hid) as [e He].
    unfold remote_random_port, get_remote_user. mrun. rewrite He. discriminate.
Qed.

Lemma remote_random_port_echoes_host_witness :
  "h1" = remote_host (set_remote_host "h1" (Scenario.spawner ["h1"] false false))
  ∧ (remote_random_port (Scenario.oracle "9000" "" None)
       (set_remote_host "h1" (Scenario.spawner ["h1"] false false), Scenario.world)).2
    = (set_remote_host "h1" (Scenario.spawner ["h1"] false false),
       logged (EvSsh "h1" "ann" "/usr/bin/python /usr/local/bin/get_port.py" None)
         Scenario.world).
Proof.
  apply (remote_random_port_echoes_host (Scenario.oracle "9000" "" None)
           (set_remote_host "h1" (Scenario.spawner ["h1"] false false)) Scenario.world
           "h1" (Some 9000)).
  reflexivity.
Defined.

(** X7. The launch returns the process id that the script printed: when the
    standard output is the decimal text of [p] and a line feed, the result
    is [p], negative or not; when it is not empty and not an integer, the
    launch raises the parse error after the session. *)
Theorem exec_notebook_reads_pid (O : Oracle) (command : string) (s : Spawner)
    (w : World) (r : RunResult) :
  identity_readable O s w = true →
  open_w O w (run_script_path s) = true →
  let w1 := with_fs (<[run_script_path s := bash_script_str (exec_env O s) command]>) w in
  ssh_run O w1 (remote_host s) (user_name s) "bash -s" (Some (run_script_path s))
    = Some r →
  (∀ p, stdout r = Py.fmt_d p +:+ Py.nl →
        exec_notebook O command (s, w) = (Ok p, (s, logged (launch_session s) w1)))
  ∧ (stdout r ≠ "" → Py.int_of_str (stdout r) = None →
     exec_notebook O command (s, w)
     = (Raise ValueError, (s, logged (launch_session s) w1))).
Proof.
  intros Hid Hw w1 Hrun. rewrite exec_notebook_run by done. fold w1.
  rewrite Hrun. split.
  - intros p Hout. pose proof (int_of_str_fmt_d p) as Hint. rewrite <- Hout in Hint.
    by rewrite Hint.
  - intros _ Hint. by rewrite Hint.
Qed.

Lemma exec_notebook_reads_pid_witness :
  exec_notebook (Scenario.oracle "" ("4321" +:+ Py.nl) None) "run"
    (Scenario.spawner ["h1"] false false, Scenario.world)
  = (Ok 4321,
     (Scenario.spawner ["h1"] false false,
      logged (launch_session (Scenario.spawner ["h1"] false false))
        (with_fs (<["/tmp/ann_run.sh" :=
                      bash_script_str
                        (exec_env (Scenario.oracle "" "" None)
                           (Scenario.spawner ["h1"] false false)) "run"]>)
           Scenario.world))).
Proof.
  apply (proj1 (exec_notebook_reads_pid
           (Scenario.oracle "" ("4321" +:+ Py.nl) None) "run"
           (Scenario.spawner ["h1"] false false) Scenario.world
           (mkRunResult ("4321" +:+ Py.nl) "" (Some 0))
           eq_refl eq_refl eq_refl) 4321).
  reflexivity.
Defined.

(** X8. When the launch script cannot be written, the launch raises the
    error of the file and opens no session. *)
Theorem exec_notebook_write_refused (O : Oracle) (command : string) (s : Spawner)
    (w : World) :
  identity_readable O s w = true →
  open_w O w (run_script_path s) = false →
  exec_notebook O command (s, w) = (Raise (OSError (run_script_path s)), (s, w)).
Proof.
  intros [kc Hid]%read_identity_ok Hw.
  unfold exec_notebook, get_remote_user. mrun. rewrite Hid. mrun.
  rewrite write_file_run, Hw. reflexivity.
Qed.

Lemma exec_notebook_write_refused_witness :
  exec_notebook (Scenario.faulty true true false true true "" "") "run"
    (Scenario.spawner ["h1"] false false, Scenario.world)
  = (Raise (OSError "/tmp/ann_run.sh"),
     (Scenario.spawner ["h1"] false false, Scenario.world)).
Proof.
  apply (exec_notebook_write_refused (Scenario.faulty true true false true true "" "")
           "run" (Scenario.spawner ["h1"] false false) Scenario.world).
  - reflexivity.
  - reflexivity.
Defined.

(** X9. A negotiated port of 0 is a failed start:
    [start] answers [False] after the one negotiation session, keeps the
    chosen host, and neither sets [remote_port] nor launches anything. *)
Theorem start_port_zero (O : Oracle) (s0 : Spawner) (w : World) (h : string)
    (r : RunResult) :
  identity_readable O s0 w = true →
  choose_remote_host O (s0, w) = (Ok h, (s0, w)) →
  ssh_run O w h (user_name s0) (remote_port_command s0) None = Some r →
  stdout r ≠ "" →
  Py.int_of_str (stdout r) = Some 0 →
  start O (s0, w)
  = (Ok StartFalse,
     (set_remote_host h s0,
      logged (EvSsh h (user_name s0) (remote_port_command s0) None) w)).
Proof.
  intros Hid Hch Hrun Hne Hint.
  destruct (read_identity_ok O s0 w Hid) as [kc Hkc].
  unfold start. mrun. rewrite Hkc. mrun. rewrite Hch. mrun.
  rewrite remote_random_port_run by done. cbn [remote_host set_remote_host user_name
    remote_port_command]. rewrite Hrun.
  rewrite Hint. mrun. reflexivity.
Qed.

Lemma start_port_zero_witness :
  start (Scenario.oracle "0" "" None)
    (Scenario.spawner ["h1"] false false, Scenario.world)
  = (Ok StartFalse,
     (set_remote_host "h1" (Scenario.spawner ["h1"] false false),
      logged (EvSsh "h1" "ann" "/usr/bin/python /usr/local/bin/get_port.py" None)
        Scenario.world)).
Proof.
  apply (start_port_zero (Scenario.oracle "0" "" None)
           (Scenario.spawner ["h1"] false false) Scenario.world "h1"
           (mkRunResult "0" "" (Some 0))).
  - reflexivity.
  - reflexivity.
  - reflexivity.
  - discriminate.
  - reflexivity.
Defined.

(** ** Staging: what happens to the files *)

Lemma shutil_copy_run O src dst c s heap fs dirs tr :
  dst ∈ dirs →
  src ≠ Py.path_join dst (Py.basename src) →
  fs !! src = Some c →
  open_w O (mkWorld heap fs dirs tr) (Py.path_join dst (Py.basename src)) = true →
  shutil_copy O src dst (s, mkWorld heap fs dirs tr)
  = (Ok (), (s, mkWorld heap (<[Py.path_join dst (Py.basename src) := c]> fs) dirs tr)).
Proof.
  intros Hd Hne Hsrc Hw. unfold shutil_copy. mrun.
  unfold isdir. cbn [w_dirs]. rewrite bool_decide_eq_true_2 by done.
  destruct (String.eqb_spec src (Py.path_join dst (Py.basename src))); [done|].
  rewrite Hsrc. mrun. rewrite write_file_run, Hw. reflexivity.
Qed.

Lemma shutil_move_run O src dst c s heap fs dirs tr :
  dst ∈ dirs →
  fs !! Py.path_join dst (Py.basename src) = None →
  Py.path_join dst (Py.basename src) ∉ dirs →
  fs !! src = Some c →
  open_w O (mkWorld heap fs dirs tr) (Py.path_join dst (Py.basename src)) = true →
  shutil_move O src dst (s, mkWorld heap fs dirs tr)
  = (Ok (), (s, mkWorld heap
                  (<[Py.path_join dst (Py.basename src) := c]> (delete src fs)) dirs tr)).
Proof.
  intros Hd Hfree Hnodir Hsrc Hw. unfold shutil_move. mrun.
  unfold isdir, isfile. cbn [w_dirs w_fs].
  rewrite (bool_decide_eq_true_2 (dst ∈ dirs)) by done.
  rewrite (bool_decide_eq_false_2 (is_Some _)) by (rewrite Hfree; by intros [? ?]).
  rewrite (bool_decide_eq_false_2 (_ ∈ dirs)) by done.
  cbn [andb orb]. rewrite Hsrc. mrun. rewrite Hw. reflexivity.
Qed.

Ltac distinct Hnd i j :=
  let E := fresh in
  intros E;
  assert (i = j) as E' by
    (eapply (NoDup_lookup _ i j _ Hnd); cbn; [reflexivity|congruence]);
  discriminate E'.

(** X10. [stage_certs] moves the key and the certificate and copies the CA
    file.  With the three source files in place, all six paths distinct and
    the two move targets free in the staging directory, it returns, the key
    and the certificate are gone from where they were, the CA file is still
    there, and the staging directory holds the three contents under the
    sources' base names. *)
Theorem stage_certs_moves_and_copies (O : Oracle) (s : Spawner) (w : World)
    (paths : loc) (dest : string) (m : gmap string string) (a b c ka kb kc : string) :
  w_heap w !! paths = Some m →
  m !! "keyfile" = Some a →
  m !! "certfile" = Some b →
  m !! "cafile" = Some c →
  let ea := expanduser O a in
  let eb := expanduser O b in
  let ec := expanduser O c in
  let da := Py.path_join dest (Py.basename ea) in
  let db := Py.path_join dest (Py.basename eb) in
  let dc := Py.path_join dest (Py.basename ec) in
  NoDup [ea; eb; ec; da; db; dc] →
  dest ∈ w_dirs w →
  w_fs w !! ea = Some ka →
  w_fs w !! eb = Some kb →
  w_fs w !! ec = Some kc →
  w_fs w !! da = None → da ∉ w_dirs w →
  w_fs w !! db = None → db ∉ w_dirs w →
  (∀ w' p, open_w O w' p = true) →
  let res := stage_certs O paths dest (s, w) in
  (∃ d, res.1 = Ok d)
  ∧ w_fs res.2.2
    = <[dc := kc]> (<[db := kb]> (delete eb (<[da := ka]> (delete ea (w_fs w)))))
  ∧ w_fs res.2.2 !! ea = None
  ∧ w_fs res.2.2 !! eb = None
  ∧ w_fs res.2.2 !! ec = Some kc
  ∧ w_fs res.2.2 !! da = Some ka
  ∧ w_fs res.2.2 !! db = Some kb
  ∧ w_fs res.2.2 !! dc = Some kc.
Proof.
  destruct w as [heap fs dirs tr].
  intros Hm Ha Hb Hc ea eb ec da db dc Hnd Hdest Hfa Hfb Hfc Hda Hnda Hdb Hndb Hw res.
  cbn [w_heap w_fs w_dirs] in *.
  assert (ea ≠ eb) by distinct Hnd 0%nat 1%nat.
  assert (ea ≠ ec) by distinct Hnd 0%nat 2%nat.
  assert (ea ≠ da) by distinct Hnd 0%nat 3%nat.
  assert (ea ≠ db) by distinct Hnd 0%nat 4%nat.
  assert (ea ≠ dc) by distinct Hnd 0%nat 5%nat.
  assert (eb ≠ ec) by distinct Hnd 1%nat 2%nat.
  assert (eb ≠ da) by distinct Hnd 1%nat 3%nat.
  assert (eb ≠ db) by distinct Hnd 1%nat 4%nat.
  assert (eb ≠ dc) by distinct Hnd 1%nat 5%nat.
  assert (ec ≠ da) by distinct Hnd 2%nat 3%nat.
  assert (ec ≠ db) by distinct Hnd 2%nat 4%nat.
  assert (ec ≠ dc) by distinct Hnd 2%nat 5%nat.
  assert (da ≠ db) by distinct Hnd 3%nat 4%nat.
  assert (da ≠ dc) by distinct Hnd 3%nat 5%nat.
  assert (db ≠ dc) by distinct Hnd 4%nat 5%nat.
  set (m1 := <["keyfile" := ea]> m).
  set (m2 := <["certfile" := eb]> m1).
  set (m' := <["cafile" := ec]> m2).
  set (heap' := <[paths := m']> (<[paths := m2]> (<[paths := m1]> heap))).
  assert (Hm' : ∀ fs', w_heap (mkWorld heap' fs' dirs tr) !! paths = Some m')
    by (intros; apply lookup_insert_eq).
  assert (Ha' : m' !! "keyfile" = Some ea).
  { unfold m', m2. rewrite !lookup_insert_ne by done. apply lookup_insert_eq. }
  assert (Hb' : m' !! "certfile" = Some eb).
  { unfold m'. rewrite lookup_insert_ne by done. apply lookup_insert_eq. }
  assert (Hc' : m' !! "cafile" = Some ec) by apply lookup_insert_eq.
  assert (Hres : res = (Ok (fresh (dom heap')),
    (s, mkWorld (<[fresh (dom heap') :=
                    <["keyfile" := Py.path_join (resource_path s) (Py.basename ea)]>
                      (<["certfile" := Py.path_join (resource_path s) (Py.basename eb)]>
                         (<["cafile" := Py.path_join (resource_path s) (Py.basename ec)]>
                            ∅))]> heap')
          (<[dc := kc]> (<[db := kb]> (delete eb (<[da := ka]> (delete ea fs)))))
          dirs tr))).
  { subst res. unfold stage_certs. mrun.
    rewrite (dict_get_run paths _ a m) by done. mrun.
    rewrite (dict_set_run paths _ _ m) by done. mrun. fold ea m1.
    rewrite (dict_get_run paths _ b m1);
      [|apply lookup_insert_eq|by unfold m1; rewrite lookup_insert_ne]. mrun.
    rewrite (dict_set_run paths _ _ m1) by apply lookup_insert_eq. mrun. fold eb m2.
    rewrite (dict_get_run paths _ c m2);
      [|apply lookup_insert_eq|by unfold m2, m1; rewrite !lookup_insert_ne]. mrun.
    rewrite (dict_set_run paths _ _ m2) by apply lookup_insert_eq. mrun. fold ec m'.
    rewrite (dict_get_run paths _ ea m'); [|apply lookup_insert_eq|done]. mrun.
    unfold with_heap. cbn [w_heap w_fs w_dirs w_trace].
    change (<[paths := _]> (<[paths := m2]> (<[paths := m1]> heap))) with heap'.
    rewrite (shutil_move_run O ea dest ka) by done. mrun.
    rewrite (dict_get_run paths _ eb m') by done. mrun.
    rewrite (shutil_move_run O eb dest kb); [|done| | |by rewrite lookup_insert_ne,
      lookup_delete_ne|done].
    2: { fold db da. rewrite lookup_insert_ne by done.
         rewrite lookup_delete_ne by done. exact Hdb. }
    2: { exact Hndb. }
    mrun.
    rewrite (dict_get_run paths _ ec m') by done. mrun.
    rewrite (shutil_copy_run O ec dest kc); [|done|done| |done].
    2: { rewrite lookup_insert_ne, lookup_delete_ne, lookup_insert_ne,
           lookup_delete_ne by done. exact Hfc. }
    mrun.
    do 3 (rewrite (dict_get_run paths _ _ m') by done; mrun).
    rewrite dict_new_run. reflexivity. }
  rewrite Hres. cbn [fst snd w_fs]. split; [eauto|]. split; [reflexivity|].
  repeat split.
  - rewrite !lookup_insert_ne, lookup_delete_ne, lookup_insert_ne by done.
    apply lookup_delete_eq.
  - rewrite !lookup_insert_ne by done. apply lookup_delete_eq.
  - rewrite !lookup_insert_ne, lookup_delete_ne, lookup_insert_ne,
      lookup_delete_ne by done. exact Hfc.
  - rewrite !lookup_insert_ne, lookup_delete_ne by done. apply lookup_insert_eq.
  - rewrite lookup_insert_ne by done. apply lookup_insert_eq.
  - apply lookup_insert_eq.
Qed.

Lemma stage_certs_moves_and_copies_witness :
  let res := stage_certs (Scenario.oracle "" "" None) 0%nat "/stage"
               (Scenario.spawner ["h1"] true true, Scenario.world) in
  (∃ d, res.1 = Ok d)
  ∧ w_fs res.2.2
    = <["/stage/ca.crt" := "CA"]>
        (<["/stage/ann.crt" := "C"]>
           (delete "/home/hub/ssl/ann.crt"
              (<["/stage/ann.key" := "K"]>
                 (delete "/home/hub/ssl/ann.key" (w_fs Scenario.world)))))
  ∧ w_fs res.2.2 !! "/home/hub/ssl/ann.key" = None
  ∧ w_fs res.2.2 !! "/home/hub/ssl/ann.crt" = None
  ∧ w_fs res.2.2 !! "/home/hub/ssl/ca.crt" = Some "CA"
  ∧ w_fs res.2.2 !! "/stage/ann.key" = Some "K"
  ∧ w_fs res.2.2 !! "/stage/ann.crt" = Some "C"
  ∧ w_fs res.2.2 !! "/stage/ca.crt" = Some "CA".
Proof.
  apply (stage_certs_moves_and_copies (Scenario.oracle "" "" None)
           (Scenario.spawner ["h1"] true true) Scenario.world 0%nat "/stage"
           Scenario.tls_paths "~/ssl/ann.key" "~/ssl/ann.crt" "~/ssl/ca.crt"
           "K" "C" "CA").
  - reflexivity.
  - reflexivity.
  - reflexivity.
  - reflexivity.
  - refine (bool_decide_eq_true_1 _ _); vm_compute; reflexivity.
  - refine (bool_decide_eq_true_1 _ _); vm_compute; reflexivity.
  - reflexivity.
  - reflexivity.
  - reflexivity.
  - reflexivity.
  - refine (bool_decide_eq_true_1 _ _); vm_compute; reflexivity.
  - reflexivity.
  - refine (bool_decide_eq_true_1 _ _); vm_compute; reflexivity.
  - reflexivity.
Defined.

(** X11. [stage_ssh_keys] copies: with both key files in place and the four
    paths distinct, it returns, the staging directory holds both contents
    under the sources' base names, and both sources are still where they
    were. *)
Theorem stage_ssh_keys_copies (O : Oracle) (s : Spawner) (w : World)
    (paths : loc) (dest : string) (m : gmap string string) (a b ka kb : string) :
  w_heap w !! paths = Some m →
  m !! "private_key_file" = Some a →
  m !! "public_key_file" = Some b →
  let ea := expanduser O a in
  let eb := expanduser O b in
  let da := Py.path_join dest (Py.basename ea) in
  let db := Py.path_join dest (Py.basename eb) in
  NoDup [ea; eb; da; db] →
  dest ∈ w_dirs w →
  w_fs w !! ea = Some ka →
  w_fs w !! eb = Some kb →
  (∀ w' p, open_w O w' p = true) →
  let res := stage_ssh_keys O paths dest (s, w) in
  (∃ d, res.1 = Ok d)
  ∧ w_fs res.2.2 = <[db := kb]> (<[da := ka]> (w_fs w))
  ∧ w_fs res.2.2 !! ea = Some ka
  ∧ w_fs res.2.2 !! eb = Some kb.
Proof.
  destruct w as [heap fs dirs tr].
  intros Hm Ha Hb ea eb da db Hnd Hdest Hfa Hfb Hw res.
  cbn [w_heap w_fs w_dirs] in *.
  assert (ea ≠ eb) by distinct Hnd 0%nat 1%nat.
  assert (ea ≠ da) by distinct Hnd 0%nat 2%nat.
  assert (ea ≠ db) by distinct Hnd 0%nat 3%nat.
  assert (eb ≠ da) by distinct Hnd 1%nat 2%nat.
  assert (eb ≠ db) by distinct Hnd 1%nat 3%nat.
  set (m1 := <["private_key_file" := ea]> m).
  set (m' := <["public_key_file" := eb]> m1).
  set (heap' := <[paths := m']> (<[paths := m1]> heap)).
  assert (Hm' : ∀ fs', w_heap (mkWorld heap' fs' dirs tr) !! paths = Some m')
    by (intros; apply lookup_insert_eq).
  assert (Ha' : m' !! "private_key_file" = Some ea).
  { unfold m'. rewrite lookup_insert_ne by done. apply lookup_insert_eq. }
  assert (Hb' : m' !! "public_key_file" = Some eb) by apply lookup_insert_eq.
  assert (Hres : res.1 = Ok (fresh (dom heap'))
                 ∧ w_fs res.2.2 = <[db := kb]> (<[da := ka]> fs)).
  { subst res. unfold stage_ssh_keys. mrun.
    rewrite (dict_get_run paths _ a m) by done. mrun.
    rewrite (dict_set_run paths _ _ m) by done. mrun. fold ea m1.
    rewrite (dict_get_run paths _ b m1);
      [|apply lookup_insert_eq|by unfold m1; rewrite lookup_insert_ne]. mrun.
    rewrite (dict_set_run paths _ _ m1) by apply lookup_insert_eq. mrun. fold eb m'.
    rewrite (dict_get_run paths _ ea m'); [|apply lookup_insert_eq|done]. mrun.
    unfold with_heap. cbn [w_heap w_fs w_dirs w_trace].
    change (<[paths := _]> (<[paths := m1]> heap)) with heap'.
    rewrite (shutil_copy_run O ea dest ka) by done. mrun.
    rewrite (dict_get_run paths _ eb m') by done. mrun.
    rewrite (shutil_copy_run O eb dest kb); [|done|done| |done].
    2: { rewrite lookup_insert_ne by done. exact Hfb. }
    mrun.
    do 2 (rewrite (dict_get_run paths _ _ m') by done; mrun).
    rewrite dict_new_run. split; reflexivity. }
  destruct Hres as [Hok Hfs]. split; [eauto|]. split; [exact Hfs|].
  rewrite Hfs. split.
  - by rewrite !lookup_insert_ne.
  - by rewrite !lookup_insert_ne.
Qed.

Lemma stage_ssh_keys_copies_witness :
  let res := stage_ssh_keys (Scenario.oracle "" "" None) 1%nat "/stage"
               (Scenario.spawner ["h1"] true true, Scenario.world) in
  (∃ d, res.1 = Ok d)
  ∧ w_fs res.2.2
    = <["/stage/fw.pub" := "PUB"]> (<["/stage/fw" := "P"]> (w_fs Scenario.world))
  ∧ w_fs res.2.2 !! "/home/hub/keys/fw" = Some "P"
  ∧ w_fs res.2.2 !! "/home/hub/keys/fw.pub" = Some "PUB".
Proof.
  apply (stage_ssh_keys_copies (Scenario.oracle "" "" None)
           (Scenario.spawner ["h1"] true true) Scenario.world 1%nat "/stage"
           Scenario.tunnel_paths "~/keys/fw" "~/keys/fw.pub" "P" "PUB").
  - reflexivity.
  - reflexivity.
  - reflexivity.
  - refine (bool_decide_eq_true_1 _ _); vm_compute; reflexivity.
  - refine (bool_decide_eq_true_1 _ _); vm_compute; reflexivity.
  - reflexivity.
  - reflexivity.
  - reflexivity.
Defined.

(** X12. A dict that lacks an entry makes staging raise [KeyError] for it
    before any file is touched.  The entries that come before it in the
    source have been rewritten by then: a missing [keyfile] leaves the dict
    as it was, a missing [certfile] leaves it with the [keyfile] entry
    already expanded. *)
Theorem stage_certs_missing_key (O : Oracle) (s : Spawner) (w : World)
    (paths : loc) (dest : string) (m : gmap string string) :
  w_heap w !! paths = Some m →
  (m !! "keyfile" = None →
   stage_certs O paths dest (s, w) = (Raise (KeyError "keyfile"), (s, w)))
  ∧ (∀ a, m !! "keyfile" = Some a → m !! "certfile" = None →
       stage_certs O paths dest (s, w)
       = (Raise (KeyError "certfile"),
          (s, with_heap (<[paths := <["keyfile" := expanduser O a]> m]>) w)))
  ∧ (m !! "private_key_file" = None →
     stage_ssh_keys O paths dest (s, w)
     = (Raise (KeyError "private_key_file"), (s, w))).
Proof.
  intros Hm. repeat split.
  - intros Hk. unfold stage_certs, dict_get. mrun. rewrite Hm. mrun. rewrite Hk.
    reflexivity.
  - intros a Ha Hb. unfold stage_certs. mrun.
    rewrite (dict_get_run paths _ a m) by done. mrun.
    rewrite (dict_set_run paths _ _ m) by done. mrun.
    unfold dict_get. mrun. rewrite lookup_insert_eq. mrun.
    rewrite lookup_insert_ne, Hb by done. reflexivity.
  - intros Hk. unfold stage_ssh_keys, dict_get. mrun. rewrite Hm. mrun. rewrite Hk.
    reflexivity.
Qed.

Lemma stage_certs_missing_key_witness :
  stage_certs (Scenario.oracle "" "" None) 1%nat "/stage"
    (Scenario.spawner ["h1"] true true, Scenario.world)
  = (Raise (KeyError "keyfile"), (Scenario.spawner ["h1"] true true, Scenario.world))
  ∧ stage_ssh_keys (Scenario.oracle "" "" None) 0%nat "/stage"
      (Scenario.spawner ["h1"] true true, Scenario.world)
    = (Raise (KeyError "private_key_file"),
       (Scenario.spawner ["h1"] true true, Scenario.world)).
Proof.
  split.
  - apply (proj1 (stage_certs_missing_key (Scenario.oracle "" "" None)
             (Scenario.spawner ["h1"] true true) Scenario.world 1%nat "/stage"
             Scenario.tunnel_paths eq_refl)).
    reflexivity.
  - apply (proj2 (proj2 (stage_certs_missing_key (Scenario.oracle "" "" None)
             (Scenario.spawner ["h1"] true true) Scenario.world 0%nat "/stage"
             Scenario.tls_paths eq_refl))).
    reflexivity.
Defined.

(** ** The reverse tunnel *)

Lemma percent1_plain (t arg : string) :
  has_percent t = false → Py.percent1 t arg true = Some t.
Proof.
  induction t as [|c t IH]; [reflexivity|].
  cbn [has_percent]. intros [Hc Ht]%orb_false_iff. specialize (IH Ht).
  destruct c as [[] [] [] [] [] [] [] []]; try discriminate Hc;
    cbn [Py.percent1]; rewrite IH; reflexivity.
Qed.

Lemma has_percent_append (a b : string) :
  has_percent (a +:+ b) = has_percent a || has_percent b.
Proof.
  induction a as [|x a IH]; [reflexivity|].
  change (Ascii.eqb x "%" || has_percent (a +:+ b)
          = Ascii.eqb x "%" || has_percent a || has_percent b).
  rewrite IH. by rewrite orb_assoc.
Qed.

Lemma percent1_line (name arg : string) :
  has_percent name = false →
  Py.percent1 ("%s < /dev/null >> ." +:+ name
                 +:+ "_ssh_remote_forward.log 2>&1 & pid=$!" +:+ Py.nl) arg false
  = Some (arg +:+ " < /dev/null >> ." +:+ name
            +:+ "_ssh_remote_forward.log 2>&1 & pid=$!" +:+ Py.nl).
Proof.
  intros Hn.
  change (Py.percent1 ("%s < /dev/null >> ." +:+ name
                 +:+ "_ssh_remote_forward.log 2>&1 & pid=$!" +:+ Py.nl) arg false)
    with (String.append arg <$>
            Py.percent1 (" < /dev/null >> ." +:+ name
                 +:+ "_ssh_remote_forward.log 2>&1 & pid=$!" +:+ Py.nl) arg true).
  rewrite percent1_plain; [reflexivity|].
  rewrite !has_percent_append, Hn. reflexivity.
Qed.

Lemma forward_session_run O s w key :
  identity_readable O s w = true →
  dict_get (ssh_forward_credentials_paths s) "private_key_file" (s, w) = (Ok key, (s, w)) →
  has_percent (user_name s) = false →
  let f := forward_run_script s in
  let w1 := with_fs (<[f := forward_script s key]>) w in
  let w2 := logged (EvChmod f 493) w1 in
  let w3 := logged (EvSubprocess [f]) w2 in
  start_ssh_remote_forward_session O (s, w) =
    if open_w O w f then
      if chmod_answer O w1 f 493 then
        if subprocess_run O w2 [f] then (Ok true, (s, w3))
        else (Raise (OSError f), (s, w3))
      else (Raise (Exception ("Failed to set executable permissions on: " +:+ f)), (s, w2))
    else (Raise (OSError f), (s, w)).
Proof.
  intros [kc Hid]%read_identity_ok Hkey Hn f w1 w2 w3.
  subst w3 w2 w1 f. unfold forward_script, backtunnel_command, forward_run_script.
  unfold start_ssh_remote_forward_session. mrun. rewrite Hid. mrun.
  rewrite Hkey. mrun. rewrite percent1_line by done. mrun.
  rewrite write_file_run.
  destruct (open_w O w _); [|reflexivity]. mrun.
  rewrite isfile_written. cbn [negb]. mrun.
  unfold chmod. mrun.
  destruct (chmod_answer O _ _ 493); cbn [negb]; mrun; [|reflexivity].
  unfold launch_detach_process. mrun.
  destruct (subprocess_run O _ _); mrun; reflexivity.
Qed.

(** X13. With readable credentials, a [private_key_file] entry and a user
    name free of percent signs, the tunnel set-up writes the script (shebang
    line, then the ssh command with its two reverse forwards, detached and
    logging to the user's file) to [/tmp/<user>_ssh_remote_forward_run.sh],
    asks for mode 0755 on it, runs it, and answers [True]; it does so in
    this order and changes nothing in the spawner. *)
Theorem forward_session_success (O : Oracle) (s : Spawner) (w : World)
    (m : gmap string string) (key : string) :
  identity_readable O s w = true →
  w_heap w !! ssh_forward_credentials_paths s = Some m →
  m !! "private_key_file" = Some key →
  has_percent (user_name s) = false →
  let f := forward_run_script s in
  let w1 := with_fs (<[f := forward_script s key]>) w in
  let w2 := logged (EvChmod f 493) w1 in
  open_w O w f = true →
  chmod_answer O w1 f 493 = true →
  subprocess_run O w2 [f] = true →
  start_ssh_remote_forward_session O (s, w)
  = (Ok true, (s, logged (EvSubprocess [f]) w2)).
Proof.
  intros Hid Hm Hk Hn f w1 w2 Hw Hc Hp.
  rewrite (forward_session_run O s w key Hid (dict_get_run _ _ _ _ _ _ Hm Hk) Hn).
  fold f w1 w2. by rewrite Hw, Hc, Hp.
Qed.

Lemma forward_session_success_witness :
  start_ssh_remote_forward_session (Scenario.oracle "" "" None)
    (set_remote_host "h1" (Scenario.spawner ["h1"] false false), Scenario.world)
  = (Ok true,
     (set_remote_host "h1" (Scenario.spawner ["h1"] false false),
      logged (EvSubprocess ["/tmp/ann_ssh_remote_forward_run.sh"])
        (logged (EvChmod "/tmp/ann_ssh_remote_forward_run.sh" 493)
           (with_fs
              (<["/tmp/ann_ssh_remote_forward_run.sh" :=
                   "#!/bin/bash" +:+ Py.nl
                   +:+ "ssh -fNT -R 8081:0.0.0.0:8081 -R 8000:127.0.0.1:8000 ann@h1 -i ~/keys/fw"
                   +:+ " < /dev/null >> .ann_ssh_remote_forward.log 2>&1 & pid=$!"
                   +:+ Py.nl]>)
              Scenario.world)))).
Proof.
  apply (forward_session_success (Scenario.oracle "" "" None)
           (set_remote_host "h1" (Scenario.spawner ["h1"] false false)) Scenario.world
           Scenario.tunnel_paths "~/keys/fw"); reflexivity.
Defined.

(** X14. The tunnel script is not run unless its file could be written and
    made executable: a file that cannot be written raises with nothing done,
    a refused mode change raises after the file was written and before any
    program is started, and a program that cannot be started raises the
    error of the file. *)
Theorem forward_session_failures (O : Oracle) (s : Spawner) (w : World)
    (m : gmap string string) (key : string) :
  identity_readable O s w = true →
  w_heap w !! ssh_forward_credentials_paths s = Some m →
  m !! "private_key_file" = Some key →
  has_percent (user_name s) = false →
  let f := forward_run_script s in
  let w1 := with_fs (<[f := forward_script s key]>) w in
  let w2 := logged (EvChmod f 493) w1 in
  (open_w O w f = false →
   start_ssh_remote_forward_session O (s, w) = (Raise (OSError f), (s, w)))
  ∧ (open_w O w f = true → chmod_answer O w1 f 493 = false →
     start_ssh_remote_forward_session O (s, w)
     = (Raise (Exception ("Failed to set executable permissions on: " +:+ f)), (s, w2)))
  ∧ (open_w O w f = true → chmod_answer O w1 f 493 = true →
     subprocess_run O w2 [f] = false →
     start_ssh_remote_forward_session O (s, w)
     = (Raise (OSError f), (s, logged (EvSubprocess [f]) w2))).
Proof.
  intros Hid Hm Hk Hn f w1 w2.
  rewrite (forward_session_run O s w key Hid (dict_get_run _ _ _ _ _ _ Hm Hk) Hn).
  fold f w1 w2. repeat split.
  - by intros ->.
  - by intros -> ->.
  - by intros -> -> ->.
Qed.

Lemma forward_session_failures_witness :
  start_ssh_remote_forward_session (Scenario.faulty true true true false true "" "")
    (Scenario.spawner ["h1"] false false, Scenario.world)
  = (Raise (Exception
       "Failed to set executable permissions on: /tmp/ann_ssh_remote_forward_run.sh"),
     (Scenario.spawner ["h1"] false false,
      logged (EvChmod "/tmp/ann_ssh_remote_forward_run.sh" 493)
        (with_fs
           (<["/tmp/ann_ssh_remote_forward_run.sh" :=
                forward_script (Scenario.spawner ["h1"] false false) "~/keys/fw"]>)
           Scenario.world))).
Proof.
  apply (proj1 (proj2 (forward_session_failures
           (Scenario.faulty true true true false true "" "")
           (Scenario.spawner ["h1"] false false) Scenario.world
           Scenario.tunnel_paths "~/keys/fw" eq_refl eq_refl eq_refl eq_refl)));
    reflexivity.
Defined.

Lemma dict_get_frame (d : loc) (k : string) s w :
  ∃ r, dict_get d k (s, w) = (r, (s, w)).
Proof.
  unfold dict_get. mrun. destruct (w_heap w !! d) as [m|]; mrun; [|eauto].
  destruct (m !! k); eauto.
Qed.

(** What the tunnel set-up logs, by its outcome. *)
Lemma forward_session_trace O s w :
  let res := start_ssh_remote_forward_session O (s, w) in
  res.2.1 = s
  ∧ ((∃ e, res.1 = Raise e)
       ∧ (w_trace res.2.2 = w_trace w
          ∨ w_trace res.2.2 = w_trace w ++ [EvChmod (forward_run_script s) 493]
          ∨ w_trace res.2.2
            = w_trace w ++ [EvChmod (forward_run_script s) 493;
                            EvSubprocess [forward_run_script s]])
     ∨ ((∃ b, res.1 = Ok b)
        ∧ w_trace res.2.2
          = w_trace w ++ [EvChmod (forward_run_script s) 493;
                          EvSubprocess [forward_run_script s]])).
Proof.
  cbn zeta. unfold start_ssh_remote_forward_session, forward_run_script. mrun.
  destruct (read_identity_frame O s w (user_name s)) as [r1 ->].
  destruct r1 as [kc|e]; mrun; [|split; [done|left; eauto]].
  destruct (dict_get_frame (ssh_forward_credentials_paths s) "private_key_file" s w)
    as [r2 ->].
  destruct r2 as [key|e]; mrun; [|split; [done|left; eauto]].
  destruct (Py.percent1 _ _ _) as [line|]; mrun; [|split; [done|left; eauto]].
  rewrite write_file_run.
  destruct (open_w O w _); mrun; [|split; [done|left; eauto]].
  rewrite isfile_written. cbn [negb]. mrun. unfold chmod. mrun.
  destruct (chmod_answer O _ _ 493); cbn [negb]; mrun; [|split; [done|left; eauto]].
  unfold launch_detach_process. mrun.
  destruct (subprocess_run O _ _); mrun; cbn [negb]; mrun.
  - split; [done|]. right. split; [eauto|]. by rewrite <- app_assoc.
  - split; [done|]. left. split; [eauto|]. right. right. by rewrite <- app_assoc.
Qed.

(** X15. Setting up the tunnel is local work only: whatever the oracle
    answers and however the call ends, it adds no remote session and no
    remote copy to the log and leaves the spawner as it was. *)
Theorem forward_session_stays_local (O : Oracle) (s : Spawner) (w : World) :
  let res := start_ssh_remote_forward_session O (s, w) in
  res.2.1 = s
  ∧ ∃ l, w_trace res.2.2 = w_trace w ++ l ∧ Forall (λ ev, is_remote ev = false) l.
Proof.
  destruct (forward_session_trace O s w) as [Hs H]. split; [exact Hs|].
  destruct H as [[_ [H|[H|H]]]|[_ H]].
  - exists []. by rewrite H, app_nil_r.
  - eexists. split; [exact H|]. by repeat constructor.
  - eexists. split; [exact H|]. by repeat constructor.
  - eexists. split; [exact H|]. by repeat constructor.
Qed.

(** ** The whole of [start] *)

Lemma exec_notebook_ok_inv O command s w p st' :
  exec_notebook O command (s, w) = (Ok p, st') →
  st' = (s, logged (launch_session s)
              (with_fs (<[run_script_path s := bash_script_str (exec_env O s) command]>) w)).
Proof.
  destruct (identity_readable O s w) eqn:Hid.
  - destruct (open_w O w (run_script_path s)) eqn:Hw.
    + rewrite exec_notebook_run by done. cbn zeta.
      destruct (ssh_run O _ _ _ _ _) as [r|]; [|discriminate].
      destruct (Py.int_of_str _); [by intros [= <- <-]|discriminate].
    + destruct (read_identity_ok O s w Hid) as [kc Hkc].
      unfold exec_notebook, get_remote_user. mrun. rewrite Hkc. mrun.
      rewrite write_file_run, Hw. discriminate.
  - destruct (read_identity_fails O s w Hid) as [e He].
    unfold exec_notebook, get_remote_user. mrun. rewrite He. discriminate.
Qed.

Lemma forward_session_ok_inv O s w b st' :
  start_ssh_remote_forward_session O (s, w) = (Ok b, st') →
  st'.1 = s
  ∧ w_trace st'.2
    = w_trace w ++ [EvChmod (forward_run_script s) 493;
                    EvSubprocess [forward_run_script s]].
Proof.
  intros H. destruct (forward_session_trace O s w) as [Hs Ht].
  rewrite H in Hs, Ht. cbn [fst snd] in Hs, Ht. split; [exact Hs|].
  destruct Ht as [[[e He] _]|[_ Ht]]; [discriminate He|exact Ht].
Qed.

(** X16. [start] sets up the tunnel whether or not
    [ssh_forward_tunnel_client] is set: every run of [start] that returns
    something other than [False] has, as its last three operations, asked
    for mode 0755 on the tunnel script, run that script, and opened the
    launch session on the host it ends with. *)
Theorem start_last_operations (O : Oracle) (st st' : St) (r : StartResult) :
  start O st = (Ok r, st') →
  r ≠ StartFalse →
  ∃ tr,
    w_trace st'.2
    = tr ++ [EvChmod (forward_run_script st'.1) 493;
             EvSubprocess [forward_run_script st'.1];
             launch_session st'.1].
Proof.
  unfold start. intros H Hr.
  apply bind_ok in H as (s & st1 & _ & H).
  apply bind_ok in H as (kc & st2 & _ & H).
  apply bind_ok in H as (h & st3 & _ & H).
  apply bind_ok in H as ([] & st4 & _ & H).
  apply bind_ok in H as ([ip port] & st5 & _ & H).
  apply bind_ok in H as ([] & st6 & _ & H).
  destruct port as [port|]; [|by inversion H].
  destruct (port =? 0); [by inversion H|].
  apply bind_ok in H as ([] & st7 & _ & H).
  apply bind_ok in H as (s7 & st8 & _ & H).
  apply bind_ok in H as ([] & st9 & _ & H).
  apply bind_ok in H as (s9 & st10 & _ & H).
  apply bind_ok in H as ([] & st11 & _ & H).
  apply bind_ok in H as (s11 & st12 & _ & H).
  apply bind_ok in H as (fwd & st13 & Hfwd & H).
  apply bind_ok in H as (p & st14 & Hexec & H).
  destruct st12 as [s12 w12]. destruct st13 as [s13 w13].
  apply forward_session_ok_inv in Hfwd as [Hs13 Htr]. cbn [fst snd] in Hs13, Htr.
  subst s13. apply exec_notebook_ok_inv in Hexec. subst st14.
  revert H. mrun. cbn [pid set_pid].
  destruct (p <? 0); intros [= <- <-]; exists (w_trace w12); cbn [fst snd];
    unfold logged; cbn [w_trace with_trace with_fs]; rewrite Htr, <- app_assoc;
    reflexivity.
Qed.

Lemma start_last_operations_witness :
  let st' := (start (Scenario.oracle "9000" "1234" None)
                (Scenario.spawner ["h1"] false false, Scenario.world)).2 in
  ∃ tr,
    w_trace st'.2
    = tr ++ [EvChmod (forward_run_script st'.1) 493;
             EvSubprocess [forward_run_script st'.1];
             launch_session st'.1].
Proof.
  apply (start_last_operations (Scenario.oracle "9000" "1234" None)
           (Scenario.spawner ["h1"] false false, Scenario.world) _ (StartAt "h1" 9000)).
  - vm_compute. reflexivity.
  - discriminate.
Defined.

(** X17. A start without TLS staging and without tunnel keys, with every
    step succeeding: the port helper prints a port other than 0, both
    scripts can be written, the tunnel script can be made executable and
    run, and the launch script prints the pid [p].  Then [start] opens the
    negotiation session, sets up the tunnel, opens the launch session, in
    this order and nothing else; the launched command is the hub's command
    line with the API URL and the port rewritten; the spawner ends with the
    chosen host, the port as text and the pid; and the answer is the pair of
    host and port, or [None] when [p] is negative. *)
Theorem start_success (O : Oracle) (s0 : Spawner) (w : World) (h : string)
    (r1 r2 : RunResult) (port p : Z) (m : gmap string string) (key : string) :
  (∀ w', identity_readable O s0 w' = true) →
  (∀ w' f, open_w O w' f = true) →
  (∀ w' f mode, chmod_answer O w' f mode = true) →
  (∀ w' argv, subprocess_run O w' argv = true) →
  internal_ssl s0 = false →
  ssh_forward_tunnel_client s0 = false →
  has_percent (user_name s0) = false →
  w_heap w !! ssh_forward_credentials_paths s0 = Some m →
  m !! "private_key_file" = Some key →
  choose_remote_host O (s0, w) = (Ok h, (s0, w)) →
  ssh_run O w h (user_name s0) (remote_port_command s0) None = Some r1 →
  stdout r1 ≠ "" →
  Py.int_of_str (stdout r1) = Some port →
  port ≠ 0 →
  let s1 := set_remote_port (Py.fmt_d port) (set_remote_host h s0) in
  let f := forward_run_script s1 in
  let w1 := logged (EvSsh h (user_name s0) (remote_port_command s0) None) w in
  let w2 := logged (EvSubprocess [f])
              (logged (EvChmod f 493) (with_fs (<[f := forward_script s1 key]>) w1)) in
  let remote_cmd :=
    Py.str_join " " (rewrite_port port (rewrite_hub_api_url s1 (cmd s0 ++ get_args O))) in
  let w3 := with_fs (<[run_script_path s1 :=
                         bash_script_str (exec_env O s1) remote_cmd]>) w2 in
  ssh_run O w3 h (user_name s0) "bash -s" (Some (run_script_path s1)) = Some r2 →
  stdout r2 = Py.fmt_d p +:+ Py.nl →
  start O (s0, w)
  = (Ok (if p <? 0 then StartNone else StartAt h port),
     (set_pid p s1, logged (launch_session s1) w3)).
Proof.
  intros Hid Hw Hc Hp Hssl Htun Hn Hm Hk Hch Hrun1 Hne Hint Hport
    s1 f w1 w2 remote_cmd w3 Hrun2 Hout.
  destruct (read_identity_ok O s0 w (Hid w)) as [kc Hkc].
  unfold start. mrun. rewrite Hkc. mrun. rewrite Hch. mrun.
  rewrite remote_random_port_run by exact (Hid w).
  cbn [remote_host set_remote_host user_name remote_port_command].
  rewrite Hrun1, Hint. mrun.
  destruct (Z.eqb_spec port 0) as [|_]; [done|]. mrun.
  cbn [internal_ssl set_remote_port set_remote_host]. rewrite Hssl. mrun.
  cbn [ssh_forward_tunnel_client set_remote_port set_remote_host]. rewrite Htun. mrun.
  change (set_remote_port (Py.fmt_d port) (set_remote_host h (set_remote_host h s0)))
    with s1.
  fold w1.
  rewrite (forward_session_run O s1 w1 key (Hid w1)
             (dict_get_run (ssh_forward_credentials_paths s1) "private_key_file"
                key m s1 w1 Hm Hk) Hn).
  cbn zeta. fold f. rewrite Hw, Hc, Hp. mrun. fold w2.
  rewrite (exec_notebook_run O _ s1 w2 (Hid w2) (Hw _ _)). cbn zeta.
  change (cmd s1) with (cmd s0). fold remote_cmd. fold w3.
  change (remote_host s1) with h. change (user_name s1) with (user_name s0).
  rewrite Hrun2.
  pose proof (int_of_str_fmt_d p) as Hpid. rewrite <- Hout in Hpid.
  rewrite Hpid. mrun.
  cbn [pid set_pid]. destruct (p <? 0); reflexivity.
Qed.

Lemma start_success_witness :
  ∃ st',
    start (Scenario.oracle ("9000" +:+ Py.nl) ("1234" +:+ Py.nl) None)
      (Scenario.spawner ["h1"; "h2"] false false, Scenario.world)
    = (Ok (StartAt "h1" 9000), st')
    ∧ remote_host st'.1 = "h1"
    ∧ remote_port st'.1 = "9000"
    ∧ pid st'.1 = 1234
    ∧ w_trace st'.2
      = [EvSsh "h1" "ann" "/usr/bin/python /usr/local/bin/get_port.py" None;
         EvChmod "/tmp/ann_ssh_remote_forward_run.sh" 493;
         EvSubprocess ["/tmp/ann_ssh_remote_forward_run.sh"];
         EvSsh "h1" "ann" "bash -s" (Some "/tmp/ann_run.sh")].
Proof.
  eexists. split.
  - apply (start_success
             (Scenario.oracle ("9000" +:+ Py.nl) ("1234" +:+ Py.nl) None)
             (Scenario.spawner ["h1"; "h2"] false false) Scenario.world "h1"
             (mkRunResult ("9000" +:+ Py.nl) "" (Some 0))
             (mkRunResult ("1234" +:+ Py.nl) "" (Some 0))
             9000 1234 Scenario.tunnel_paths "~/keys/fw").
    + intros w'. reflexivity.
    + intros w' f. reflexivity.
    + intros w' f mode. reflexivity.
    + intros w' argv. reflexivity.
    + reflexivity.
    + reflexivity.
    + reflexivity.
    + reflexivity.
    + reflexivity.
    + reflexivity.
    + reflexivity.
    + discriminate.
    + reflexivity.
    + discriminate.
    + reflexivity.
    + reflexivity.
  - repeat split; reflexivity.
Defined.

(** ** The command line and the environment *)

Lemma slice_port_flag (x : string) : Py.slice0 6 ("--port=" +:+ x) = "--port".
Proof. reflexivity. Qed.

(** X18. Rewriting the port touches every argument whose first six
    characters are [--port], whatever follows them, and no other: the result
    has as many arguments, each such argument is [--port=<port>], the rest
    are unchanged, and a later rewriting with another port overrides an
    earlier one. *)
Theorem rewrite_port_spec (port port' : Z) (c : list string) :
  length (rewrite_port port c) = length c
  ∧ Forall2 (λ before after,
               (Py.slice0 6 before = "--port" → after = "--port=" +:+ Py.fmt_d port)
               ∧ (Py.slice0 6 before ≠ "--port" → after = before))
      c (rewrite_port port c)
  ∧ Forall (λ after, Py.slice0 6 after = "--port" → after = "--port=" +:+ Py.fmt_d port)
      (rewrite_port port c)
  ∧ rewrite_port port' (rewrite_port port c) = rewrite_port port' c.
Proof.
  unfold rewrite_port. split; [apply length_map|]. split; [|split].
  - induction c as [|v c IH]; cbn [map]; constructor; [|exact IH].
    destruct (String.eqb_spec (Py.slice0 6 v) "--port"); split; done.
  - induction c as [|v c IH]; cbn [map]; constructor; [|exact IH].
    destruct (String.eqb_spec (Py.slice0 6 v) "--port"); [done|]. intros; done.
  - rewrite map_map. apply map_ext. intros v.
    destruct (String.eqb (Py.slice0 6 v) "--port") eqn:E.
    + rewrite slice_port_flag. reflexivity.
    + by rewrite E.
Qed.

Lemma alookup_odict_set (k k' v : string) (env : list (string * string)) :
  alookup k (odict_set k' v env)
  = if String.eqb k' k then Some v else alookup k env.
Proof.
  induction env as [|[k0 v0] env IH]; cbn [odict_set alookup].
  - reflexivity.
  - destruct (String.eqb_spec k0 k') as [->|Hne]; cbn [alookup].
    + destruct (String.eqb k' k); reflexivity.
    + rewrite IH. destruct (String.eqb_spec k0 k) as [->|Hne2]; [|reflexivity].
      destruct (String.eqb_spec k' k); [congruence|reflexivity].
Qed.

Lemma odict_set_keys (k v : string) (env : list (string * string)) :
  (odict_set k v env).*1 = if bool_decide (k ∈ env.*1) then env.*1 else env.*1 ++ [k].
Proof.
  induction env as [|[k0 v0] env IH]; cbn [odict_set fmap list_fmap fst app].
  - rewrite bool_decide_eq_false_2 by apply not_elem_of_nil. reflexivity.
  - destruct (String.eqb_spec k0 k) as [->|Hne].
    + rewrite bool_decide_eq_true_2 by apply list_elem_of_here. reflexivity.
    + cbn [fmap list_fmap fst]. change (list_fmap _ _ fst ?l) with (l.*1). rewrite IH.
      destruct (decide (k ∈ env.*1)) as [Hin|Hin].
      * rewrite !bool_decide_eq_true_2; [reflexivity|by apply list_elem_of_further|done].
      * rewrite !bool_decide_eq_false_2; [reflexivity| |done].
        intros [?|?]%elem_of_cons; congruence.
Qed.

Lemma odict_set_keys_extend (k v : string) (env : list (string * string)) :
  ∃ extra, (odict_set k v env).*1 = env.*1 ++ extra.
Proof.
  rewrite odict_set_keys. case_bool_decide; [exists []; by rewrite app_nil_r|eauto].
Qed.

Lemma odict_set_NoDup (k v : string) (env : list (string * string)) :
  NoDup env.*1 → NoDup (odict_set k v env).*1.
Proof.
  intros Hnd. rewrite odict_set_keys. case_bool_decide as Hin; [done|].
  apply NoDup_app. split; [done|]. split; [|apply NoDup_singleton].
  intros x Hx ->%list_elem_of_singleton. done.
Qed.

(** X19. The environment of the launch script: [PATH] and the two hub URLs
    have the spawner's configured values, every other variable has the
    inherited value; the inherited variables keep their order, new ones come
    after them, and no name is exported twice when none was inherited
    twice. *)
Theorem exec_env_spec (O : Oracle) (s : Spawner) :
  (∀ k, alookup k (exec_env O s)
        = if String.eqb k "PATH" then Some (path s)
          else if String.eqb k "JUPYTERHUB_ACTIVITY_URL" then Some (hub_activity_url s)
          else if String.eqb k "JUPYTERHUB_API_URL" then Some (hub_api_url s)
          else alookup k (super_get_env O))
  ∧ (∃ extra, (exec_env O s).*1 = (super_get_env O).*1 ++ extra)
  ∧ (NoDup (super_get_env O).*1 → NoDup (exec_env O s).*1).
Proof.
  unfold exec_env. cbn zeta. split; [|split].
  - intros k. rewrite !alookup_odict_set. rewrite !(String.eqb_sym k).
    reflexivity.
  - destruct (odict_set_keys_extend "JUPYTERHUB_API_URL" (hub_api_url s)
                (super_get_env O)) as [e1 H1].
    destruct (odict_set_keys_extend "JUPYTERHUB_ACTIVITY_URL" (hub_activity_url s)
                (odict_set "JUPYTERHUB_API_URL" (hub_api_url s) (super_get_env O)))
      as [e2 H2].
    destruct (odict_set_keys_extend "PATH" (path s)
                (odict_set "JUPYTERHUB_ACTIVITY_URL" (hub_activity_url s)
                   (odict_set "JUPYTERHUB_API_URL" (hub_api_url s) (super_get_env O))))
      as [e3 H3].
    exists (e1 ++ e2 ++ e3). rewrite H3, H2, H1. by rewrite <- !app_assoc.
  - intros Hnd. by do 3 apply odict_set_NoDup.
Qed.

Lemma exec_env_spec_witness :
  alookup "PATH" (exec_env (Scenario.oracle "" "" None) (Scenario.spawner ["h1"] false false))
  = Some "/usr/bin:/bin"
  ∧ NoDup (exec_env (Scenario.oracle "" "" None) (Scenario.spawner ["h1"] false false)).*1.
Proof.
  split.
  - apply (proj1 (exec_env_spec (Scenario.oracle "" "" None)
             (Scenario.spawner ["h1"] false false)) "PATH").
  - apply (proj2 (proj2 (exec_env_spec (Scenario.oracle "" "" None)
             (Scenario.spawner ["h1"] false false)))).
    refine (bool_decide_eq_true_1 _ _); vm_compute; reflexivity.
Defined.

(** X20. With an empty pool of hosts [start] raises the [IndexError] of the
    choice, once the credentials were read: it does not answer [False], and
    it opens no session and changes nothing. *)
Theorem start_empty_pool (O : Oracle) (s : Spawner) (w : World) :
  identity_readable O s w = true →
  remote_hosts s = [] →
  start O (s, w) = (Raise IndexError, (s, w)).
Proof.
  intros [kc Hid]%read_identity_ok Hpool.
  unfold start. mrun. rewrite Hid. mrun.
  unfold choose_remote_host. mrun. rewrite Hpool. reflexivity.
Qed.

Lemma start_empty_pool_witness :
  start (Scenario.oracle "" "" None) (Scenario.spawner [] false false, Scenario.world)
  = (Raise IndexError, (Scenario.spawner [] false false, Scenario.world)).
Proof.
  apply (start_empty_pool (Scenario.oracle "" "" None)
           (Scenario.spawner [] false false) Scenario.world).
  - reflexivity.
  - reflexivity.
Defined.

(** X21. A negotiation that fails otherwise than by printing nothing makes
    [start] raise instead of answering [False]: the connection error when
    the session cannot be had, the parse error when the helper printed
    something that is no integer.  The spawner then keeps the chosen host,
    and nothing was launched. *)
Theorem start_negotiation_raises (O : Oracle) (s0 : Spawner) (w : World) (h : string) :
  identity_readable O s0 w = true →
  choose_remote_host O (s0, w) = (Ok h, (s0, w)) →
  let w' := logged (EvSsh h (user_name s0) (remote_port_command s0) None) w in
  (ssh_run O w h (user_name s0) (remote_port_command s0) None = None →
   start O (s0, w) = (Raise ConnectionError, (set_remote_host h s0, w')))
  ∧ (∀ r, ssh_run O w h (user_name s0) (remote_port_command s0) None = Some r →
          stdout r ≠ "" → Py.int_of_str (stdout r) = None →
          start O (s0, w) = (Raise ValueError, (set_remote_host h s0, w'))).
Proof.
  intros Hid Hch w'.
  destruct (read_identity_ok O s0 w Hid) as [kc Hkc].
  split.
  - intros Hrun. unfold start. mrun. rewrite Hkc. mrun. rewrite Hch. mrun.
    rewrite remote_random_port_run by done.
    cbn [remote_host set_remote_host user_name remote_port_command].
    rewrite Hrun. reflexivity.
  - intros r Hrun Hne Hint. unfold start. mrun. rewrite Hkc. mrun. rewrite Hch. mrun.
    rewrite remote_random_port_run by done.
    cbn [remote_host set_remote_host user_name remote_port_command].
    rewrite Hrun, Hint. reflexivity.
Qed.

Lemma start_negotiation_raises_witness :
  start (Scenario.faulty false true true true true "" "")
    (Scenario.spawner ["h1"] false false, Scenario.world)
  = (Raise ConnectionError,
     (set_remote_host "h1" (Scenario.spawner ["h1"] false false),
      logged (EvSsh "h1" "ann" "/usr/bin/python /usr/local/bin/get_port.py" None)
        Scenario.world))
  ∧ start (Scenario.oracle "busy" "" None)
      (Scenario.spawner ["h1"] false false, Scenario.world)
    = (Raise ValueError,
       (set_remote_host "h1" (Scenario.spawner ["h1"] false false),
        logged (EvSsh "h1" "ann" "/usr/bin/python /usr/local/bin/get_port.py" None)
          Scenario.world)).
Proof.
  split.
  - apply (proj1 (start_negotiation_raises (Scenario.faulty false true true true true "" "")
             (Scenario.spawner ["h1"] false false) Scenario.world "h1"
             eq_refl eq_refl)).
    reflexivity.
  - apply (proj2 (start_negotiation_raises (Scenario.oracle "busy" "" None)
             (Scenario.spawner ["h1"] false false) Scenario.world "h1"
             eq_refl eq_refl)
             (mkRunResult "busy" "" (Some 0))).
    + reflexivity.
    + discriminate.
    + reflexivity.
Defined.
